(** * Smart Device Management System: the routes of [routes/main.js]

    A shallow embedding of the request handlers of the Express application
    (create, confirm-delete, delete, display-status, retrieve-update-record
    and update) and of the JavaScript operations they use: the global
    character-class replace, the custom-name regular expression, the
    field checks, the comma split of the delete flows and the derived
    display state.

    A handler is a function from the parsed request body and the answers
    of the database to the list of events it produces, in order: the
    queries handed to [db.query], the responses written to [res], and an
    uncaught [TypeError].

    A character of a string stands for one code unit; the classes the
    program tests ([a-z], [A-Z], [0-9], space, underscore, comma) all lie
    in the ASCII range. *)

From Stdlib Require Import Bool Ascii String List ZArith Lia DecimalString.
Import ListNotations.

Local Open Scope string_scope.
Local Open Scope Z_scope.

Set Implicit Arguments.
Set Warnings "-register-all".

(** ** JavaScript values

    The values a handler meets: [bodyParser.urlencoded({ extended: true })]
    fills [req.body] with strings, arrays and objects; a missing key reads
    as [undefined]; the handlers write [null]; the database driver returns
    numbers for integer columns; the display state holds [0] or a boolean.
    A number is an integer here: no other number occurs in the program. *)

Inductive jsval : Type :=
| JUndefined
| JNull
| JBool (b : bool)
| JNum (z : Z)
| JStr (s : string)
| JArr (elems : list jsval)
| JObj (props : list (string * jsval)).

(** Property read [o[k]] on the own properties of an object. *)
Fixpoint get_prop (k : string) (props : list (string * jsval)) : jsval :=
  match props with
  | [] => JUndefined
  | (k', v) :: rest => if String.eqb k k' then v else get_prop k rest
  end.

(** [x != null]: loose inequality, false on [null] and on [undefined]. *)
Definition not_nullish (v : jsval) : bool :=
  match v with
  | JUndefined | JNull => false
  | _ => true
  end.

(** [typeof x === 'string' || x instanceof String]: no [String] object is
    ever built, so this is the test for a primitive string. *)
Definition is_string (v : jsval) : bool :=
  match v with
  | JStr _ => true
  | _ => false
  end.

(** [x === null] and [x !== null]. *)
Definition is_null (v : jsval) : bool :=
  match v with
  | JNull => true
  | _ => false
  end.

(** [x === 1] and [x === "1"]: strict equality with a number, with a string. *)
Definition strict_eq_num (v : jsval) (n : Z) : bool :=
  match v with
  | JNum z => Z.eqb z n
  | _ => false
  end.

Definition strict_eq_str (v : jsval) (t : string) : bool :=
  match v with
  | JStr s => String.eqb s t
  | _ => false
  end.

(** [Array.isArray(x)]. *)
Definition Array_isArray (v : jsval) : bool :=
  match v with
  | JArr _ => true
  | _ => false
  end.

(** ** Characters and character classes *)

Definition code (c : ascii) : Z := Z.of_N (N_of_ascii c).

Definition in_range (lo hi : Z) (c : ascii) : bool :=
  (lo <=? code c) && (code c <=? hi).

Definition is_digit (c : ascii) : bool := in_range 48 57 c.
Definition is_upper (c : ascii) : bool := in_range 65 90 c.
Definition is_lower (c : ascii) : bool := in_range 97 122 c.

(** [[a-zA-Z0-9]] *)
Definition is_alnum (c : ascii) : bool :=
  is_lower c || is_upper c || is_digit c.

(** [[a-zA-Z0-9 ]], the class whose complement the sanitizer removes. *)
Definition is_alnum_space (c : ascii) : bool :=
  is_alnum c || Ascii.eqb c " ".

(** [[a-zA-Z0-9_]], the class of the custom-name schema. *)
Definition is_word (c : ascii) : bool :=
  is_alnum c || Ascii.eqb c "_".

(** ** Strings *)

Fixpoint forall_chars (p : ascii -> bool) (s : string) : bool :=
  match s with
  | EmptyString => true
  | String c s' => p c && forall_chars p s'
  end.

Fixpoint exists_char (p : ascii -> bool) (s : string) : bool :=
  match s with
  | EmptyString => false
  | String c s' => p c || exists_char p s'
  end.

(** [s.length] *)
Definition js_length (s : string) : Z := Z.of_nat (String.length s).

(** [s.replace(/[^a-zA-Z0-9 ]/g, '')]: with the [g] flag every character
    of the negated class is replaced by the empty string. *)
Fixpoint strip (s : string) : string :=
  match s with
  | EmptyString => EmptyString
  | String c s' =>
      if is_alnum_space c then String c (strip s') else strip s'
  end.

(** [s.includes(",")] on a string. *)
Definition includes_comma (s : string) : bool :=
  exists_char (Ascii.eqb ",") s.

(** [s.split(",")]: the pieces between the commas, empty pieces kept. *)
Fixpoint split_comma (s : string) : list string :=
  match s with
  | EmptyString => [EmptyString]
  | String c s' =>
      if Ascii.eqb c "," then EmptyString :: split_comma s'
      else match split_comma s' with
           | piece :: rest => String c piece :: rest
           | [] => [String c EmptyString]
           end
  end.

(** [arr[i]]: an index past the end reads as [undefined]. *)
Definition index (pieces : list string) (i : nat) : jsval :=
  match nth_error pieces i with
  | Some p => JStr p
  | None => JUndefined
  end.

Arguments index pieces i%_nat.

(** ** Regular expressions

    The patterns of the program have neither back-references nor
    look-around, so [re.test(s)] on a pattern anchored by [^] and [$]
    (without the [m] flag) is membership of the whole of [s] in the
    language of the pattern. *)

Inductive regex : Type :=
| Void
| Eps
| Class (p : ascii -> bool)
| Cat (r1 r2 : regex)
| Alt (r1 r2 : regex)
| Star (r : regex).

(** [r+] *)
Definition Plus (r : regex) : regex := Cat r (Star r).

(** [r?] *)
Definition Opt (r : regex) : regex := Alt r Eps.

(** The language of a pattern. *)
Inductive Matches : regex -> string -> Prop :=
| MEps : Matches Eps EmptyString
| MClass p c : p c = true -> Matches (Class p) (String c EmptyString)
| MCat r1 r2 s1 s2 :
    Matches r1 s1 -> Matches r2 s2 -> Matches (Cat r1 r2) (s1 ++ s2)
| MAltL r1 r2 s : Matches r1 s -> Matches (Alt r1 r2) s
| MAltR r1 r2 s : Matches r2 s -> Matches (Alt r1 r2) s
| MStarNil r : Matches (Star r) EmptyString
| MStarCons r s1 s2 :
    Matches r s1 -> Matches (Star r) s2 -> Matches (Star r) (s1 ++ s2).

(** Matching by derivatives. *)
Fixpoint nullable (r : regex) : bool :=
  match r with
  | Void => false
  | Eps => true
  | Class _ => false
  | Cat r1 r2 => nullable r1 && nullable r2
  | Alt r1 r2 => nullable r1 || nullable r2
  | Star _ => true
  end.

Fixpoint deriv (c : ascii) (r : regex) : regex :=
  match r with
  | Void => Void
  | Eps => Void
  | Class p => if p c then Eps else Void
  | Cat r1 r2 =>
      if nullable r1 then Alt (Cat (deriv c r1) r2) (deriv c r2)
      else Cat (deriv c r1) r2
  | Alt r1 r2 => Alt (deriv c r1) (deriv c r2)
  | Star r1 => Cat (deriv c r1) (Star r1)
  end.

Fixpoint regex_test (r : regex) (s : string) : bool :=
  match s with
  | EmptyString => nullable r
  | String c s' => regex_test (deriv c r) s'
  end.

(** [/^[a-zA-Z0-9_]+([a-zA-Z0-9_]+)*$/] *)
Definition custom_name_regex : regex :=
  Cat (Plus (Class is_word)) (Star (Plus (Class is_word))).

(** [^[A-Za-z0-9_]+$], the schema as the specification writes it. *)
Definition word_plus_regex : regex := Plus (Class is_word).

(** ** Conversions to string and to number *)

Fixpoint join_comma (pieces : list string) : string :=
  match pieces with
  | [] => EmptyString
  | [p] => p
  | p :: rest => p ++ "," ++ join_comma rest
  end.

(** [String(x)]: an array joins its elements with commas, [null] and
    [undefined] elements printing as nothing; a plain object prints as
    [[object Object]]. *)
Fixpoint to_string (v : jsval) : string :=
  match v with
  | JUndefined => "undefined"
  | JNull => "null"
  | JBool true => "true"
  | JBool false => "false"
  | JNum z => NilZero.string_of_int (Z.to_int z)
  | JStr s => s
  | JArr elems =>
      join_comma
        (map (fun e => match e with
                       | JUndefined | JNull => EmptyString
                       | _ => to_string e
                       end) elems)
  | JObj _ => "[object Object]"
  end.

(** White space and line terminators, as far as one code unit below 256
    can be one. *)
Definition is_space (c : ascii) : bool :=
  in_range 9 13 c || Z.eqb (code c) 32 || Z.eqb (code c) 160.

Fixpoint trim_start (s : string) : string :=
  match s with
  | EmptyString => EmptyString
  | String c s' => if is_space c then trim_start s' else s
  end.

(** The value of a digit in a radix up to 16. *)
Definition digit_value (c : ascii) : option Z :=
  if is_digit c then Some (code c - 48)
  else if in_range 97 102 c then Some (code c - 87)
  else if in_range 65 70 c then Some (code c - 55)
  else None.

(** The number written by the longest prefix of digits of the radix;
    [None] when there is no digit. *)
Fixpoint digits_prefix (radix : Z) (acc : option Z) (s : string) : option Z :=
  match s with
  | EmptyString => acc
  | String c s' =>
      match digit_value c with
      | Some d =>
          if d <? radix
          then digits_prefix radix
                 (Some (match acc with
                        | Some a => a * radix + d
                        | None => d
                        end)) s'
          else acc
      | None => acc
      end
  end.

(** [parseInt(x)] without a radix; [None] is [NaN]. *)
Definition parseInt_string (s : string) : option Z :=
  let s0 := trim_start s in
  let '(sign, s1) :=
    match s0 with
    | String "-" rest => (-1, rest)
    | String "+" rest => (1, rest)
    | _ => (1, s0)
    end in
  let '(radix, s2) :=
    match s1 with
    | String "0" (String "x" rest) => (16, rest)
    | String "0" (String "X" rest) => (16, rest)
    | _ => (10, s1)
    end in
  option_map (Z.mul sign) (digits_prefix radix None s2).

Definition parseInt (v : jsval) : option Z := parseInt_string (to_string v).

(** [n == k], [n >= k], [n <= k] for a number [n] that may be [NaN]. *)
Definition num_eq (n : option Z) (k : Z) : bool :=
  match n with Some z => z =? k | None => false end.
Definition num_ge (n : option Z) (k : Z) : bool :=
  match n with Some z => k <=? z | None => false end.
Definition num_le (n : option Z) (k : Z) : bool :=
  match n with Some z => z <=? k | None => false end.

(** The grammar of the strings that [Number(s)] does not send to [NaN]. *)
Definition chr (c : ascii) : regex := Class (Ascii.eqb c).

Fixpoint lit (s : string) : regex :=
  match s with
  | EmptyString => Eps
  | String c s' => Cat (chr c) (lit s')
  end.

Definition digits : regex := Plus (Class is_digit).
Definition sign : regex := Alt (chr "+") (chr "-").
Definition exponent : regex :=
  Cat (Alt (chr "e") (chr "E")) (Cat (Opt sign) digits).

Definition unsigned_decimal : regex :=
  Alt (lit "Infinity")
    (Alt (Cat digits (Cat (chr ".") (Cat (Star (Class is_digit)) (Opt exponent))))
       (Alt (Cat (chr ".") (Cat digits (Opt exponent)))
          (Cat digits (Opt exponent)))).

Definition non_decimal : regex :=
  Cat (chr "0")
    (Alt (Cat (Alt (chr "b") (chr "B")) (Plus (Class (in_range 48 49))))
       (Alt (Cat (Alt (chr "o") (chr "O")) (Plus (Class (in_range 48 55))))
          (Cat (Alt (chr "x") (chr "X"))
             (Plus (Class (fun c => match digit_value c with
                                    | Some _ => true
                                    | None => false
                                    end)))))).

Definition string_numeric_literal : regex :=
  Cat (Star (Class is_space))
    (Opt (Cat (Alt (Cat (Opt sign) unsigned_decimal) non_decimal)
            (Star (Class is_space)))).

(** [isNaN(x)]: whether [Number(x)] is [NaN]. *)
Definition isNaN (v : jsval) : bool :=
  match v with
  | JUndefined => true
  | JNull | JBool _ | JNum _ => false
  | JStr s => negb (regex_test string_numeric_literal s)
  | JArr _ | JObj _ => negb (regex_test string_numeric_literal (to_string v))
  end.

(** ** Results that may throw *)

Inductive result (A : Type) : Type :=
| Ok (a : A)
| Throw.

Arguments Throw {A}.

Definition bind {A B : Type} (m : result A) (k : A -> result B) : result B :=
  match m with
  | Ok a => k a
  | Throw => Throw
  end.

Notation "x <- m ;; k" := (bind m (fun x => k))
  (at level 61, m at next level, right associativity).

(** [x.replace(/[^a-zA-Z0-9 ]/g, '')]: a string answers with its stripped
    copy; [undefined] and [null] have no properties, and neither arrays
    nor the objects of the body parser have a callable [replace]. *)
Definition replace_strip (v : jsval) : result string :=
  match v with
  | JStr s => Ok (strip s)
  | _ => Throw
  end.

(** [x.includes(",")]: on a string, the substring test; on an array, the
    search for the element [","]; anything else has no such method. *)
Definition includes (v : jsval) : result bool :=
  match v with
  | JStr s => Ok (includes_comma s)
  | JArr elems => Ok (existsb (fun e => strict_eq_str e ",") elems)
  | _ => Throw
  end.

(** [x.split(",")]: only strings have it. *)
Definition split (v : jsval) : result (list string) :=
  match v with
  | JStr s => Ok (split_comma s)
  | _ => Throw
  end.


(** ** The request body

    The keys of [req.body] the handlers read.  The two required fields
    change type under the sanitizer: before it they hold whatever the
    body parser produced, after it the primitive string that
    [String.prototype.replace] returned.  [batteriesIncluded] is the
    camel-case key that the update route reads in one place; no handler
    writes it. *)

Record body (T : Type) : Type := Body {
  device_type_ID : jsval;
  custom_name : T;
  device_type : T;
  on_off : jsval;
  batteries_included : jsval;
  open_closed : jsval;
  volume : jsval;
  temperature : jsval;
  batteriesIncluded : jsval
}.

(** The body as the object handed to a template. *)
Definition body_object (b : body string) : jsval :=
  JObj [("device_type_ID", device_type_ID b);
        ("custom_name", JStr (custom_name b));
        ("device_type", JStr (device_type b));
        ("on_off", on_off b);
        ("batteries_included", batteries_included b);
        ("open_closed", open_closed b);
        ("volume", volume b);
        ("temperature", temperature b);
        ("batteriesIncluded", batteriesIncluded b)].

(** ** Events *)

Inductive response : Type :=
| Render (view : string) (locals : list (string * jsval))
| Redirect (url : string)
| StatusJson (status : Z) (error : string)
| StatusSend (status : Z) (text : string).

Inductive event : Type :=
| Query (sql : string) (params : list jsval)
| Respond (r : response)
| Uncaught.

(** The answer of the database to one query, as the callback sees it:
    [(err, undefined)] or [(null, result)]. *)
Inductive db_answer : Type :=
| DbError
| DbResult (rows : list (list (string * jsval))).

Definition result_value (a : db_answer) : jsval :=
  match a with
  | DbError => JUndefined
  | DbResult rows => JArr (map JObj rows)
  end.

(** A statement writes to the store when it is an INSERT, an UPDATE or a
    DELETE. *)
Definition mutates (sql : string) : bool :=
  String.prefix "INSERT" sql || String.prefix "UPDATE" sql
  || String.prefix "DELETE" sql.

Definition is_mutation (e : event) : bool :=
  match e with
  | Query sql _ => mutates sql
  | _ => false
  end.

Definition is_query (e : event) : bool :=
  match e with
  | Query _ _ => true
  | _ => false
  end.

(** The statements of the program. *)
Definition sqlQueryInsert : string :=
  "INSERT INTO devicetypes (Device_Type, On_Off, Temperature, Volume, Batteries_Included, Open_Closed) VALUES (?,?,?,?,?,?)".
Definition sqlQueryRecentInsertID : string := "SELECT LAST_INSERT_ID()".
Definition sqlQueryInsertCustomName : string :=
  "INSERT INTO devicenames (Custom_Name, Device_Type_ID) VALUES (?,?)".
Definition sqlQueryAll : string :=
  "SELECT * FROM devicenames LEFT JOIN devicetypes ON devicenames.Device_Type_ID = devicetypes.Device_Type_ID".
Definition sqlQueryDeviceRecord : string :=
  "SELECT * FROM devicetypes JOIN devicenames ON devicetypes.Device_Type_ID = devicenames.Device_Type_ID AND devicetypes.Device_Type_ID = ?".
Definition sqlQueryDevice : string :=
  "SELECT * FROM devicetypes CROSS JOIN devicenames ON devicetypes.Device_Type_ID = devicenames.Device_Type_ID AND devicetypes.Device_Type_ID = ?".
Definition sqlQueryDelete : string :=
  "DELETE FROM devicetypes WHERE Device_Type_ID = ?".
Definition sqlQueryCustomName : string :=
  "UPDATE devicenames SET Custom_Name = ? WHERE Device_Type_ID = ?".
Definition sqlQueryUpdateFields : string :=
  "UPDATE devicetypes SET Device_Type = ?, On_Off = ?, Temperature = ?, Volume = ?, Batteries_Included = ?, Open_Closed = ? WHERE Device_Type_ID = ?".

(** The two error texts. *)
Definition name_error : string :=
  "Custom name does not fit schema or required length".
Definition fields_error : string :=
  "The data fields are invalid or the custom name does not fit the required schema.".

(** ** Statements shared by the routes *)

(** [if (x === EMPTY) x = null; else x = x.replace(...)], with the empty
    string as EMPTY. *)
Definition empty_to_null (v : jsval) : result jsval :=
  if strict_eq_str v EmptyString then Ok JNull
  else s <- replace_strip v ;; Ok (JStr s).

(** [if (x === undefined) x = null; else x = x.replace(...)]. *)
Definition undefined_to_null (v : jsval) : result jsval :=
  match v with
  | JUndefined => Ok JNull
  | _ => s <- replace_strip v ;; Ok (JStr s)
  end.

(** [!validCustomNameRegex || name.length < 5 || name.length > 16] *)
Definition name_out_of_schema (name : string) : bool :=
  negb (regex_test custom_name_regex name)
  || (js_length name <? 5) || (16 <? js_length name).

(** [x != null && !(typeof x === 'string' || x instanceof String)
     && (!isNaN(y) && parseInt(x) == 0 || parseInt(x) == 1)];
    [y] is [x] everywhere but in one check of the update route. *)
Definition flag_check (x y : jsval) : bool :=
  not_nullish x && negb (is_string x || false)
  && ((negb (isNaN y) && num_eq (parseInt x) 0) || num_eq (parseInt x) 1).

(** [x != null && !(typeof x === 'string' || x instanceof String)
     && (!isNaN(x) && parseInt(x) >= lo && parseInt(x) <= hi)] *)
Definition range_check (x : jsval) (lo hi : Z) : bool :=
  not_nullish x && negb (is_string x || false)
  && (negb (isNaN x) && num_ge (parseInt x) lo && num_le (parseInt x) hi).

(** [x != null && !(typeof x === 'string' || x instanceof String)] *)
Definition type_check (x : jsval) : bool :=
  not_nullish x && negb (is_string x || false).

(** [let isValid = true; if (c1) isValid = false; ...; if (cn) isValid = false;] *)
Definition run_checks (checks : list bool) : bool :=
  fold_left (fun (isValid c : bool) => if c then false else isValid) checks true.

(** The comma split that opens the confirm-delete, delete and
    retrieve-update-record handlers. *)
Definition split_fields (b : body jsval) : result (body jsval) :=
  let inputFields := device_type_ID b in
  has_comma <- includes inputFields ;;
  if has_comma then
    inputDeviceFields <- split inputFields ;;
    Ok {| device_type_ID := index inputDeviceFields 0;
          custom_name := index inputDeviceFields 1;
          device_type := index inputDeviceFields 2;
          on_off := index inputDeviceFields 3;
          batteries_included := index inputDeviceFields 4;
          open_closed := index inputDeviceFields 5;
          volume := index inputDeviceFields 6;
          temperature := index inputDeviceFields 7;
          batteriesIncluded := batteriesIncluded b |}
  else Ok b.

(** The derived display state of a joined record:
    [valid_x = (row.X !== null)] and
    [let state = 0; if (valid_x) state = (row.X === 1)]. *)
Record display_state : Type := DisplayState {
  valid_on_off : bool;
  valid_temperature : bool;
  valid_volume : bool;
  valid_batteries_included : bool;
  valid_open_closed : bool;
  deviceOnState : jsval;
  deviceOpenState : jsval;
  deviceBatteriesState : jsval
}.

Definition state_of (valid : bool) (is_one : bool) : jsval :=
  if valid then JBool is_one else JNum 0.

Definition record_display_state (row : list (string * jsval)) : display_state :=
  let valid_on_off := negb (is_null (get_prop "On_Off" row)) in
  let valid_temperature := negb (is_null (get_prop "Temperature" row)) in
  let valid_volume := negb (is_null (get_prop "Volume" row)) in
  let valid_batteries_included :=
    negb (is_null (get_prop "Batteries_Included" row)) in
  let valid_open_closed := negb (is_null (get_prop "Open_Closed" row)) in
  {| valid_on_off := valid_on_off;
     valid_temperature := valid_temperature;
     valid_volume := valid_volume;
     valid_batteries_included := valid_batteries_included;
     valid_open_closed := valid_open_closed;
     deviceOnState :=
       state_of valid_on_off (strict_eq_num (get_prop "On_Off" row) 1);
     deviceOpenState :=
       state_of valid_open_closed (strict_eq_num (get_prop "Open_Closed" row) 1);
     deviceBatteriesState :=
       state_of valid_batteries_included
         (strict_eq_num (get_prop "Batteries_Included" row) 1) |}.

(** The locals the display state adds to a template. *)
Definition display_locals (d : display_state) : list (string * jsval) :=
  [("validOnOff", JBool (valid_on_off d));
   ("validTemperature", JBool (valid_temperature d));
   ("validVolume", JBool (valid_volume d));
   ("validBatteriesIncluded", JBool (valid_batteries_included d));
   ("validOpenClosed", JBool (valid_open_closed d));
   ("deviceOn", deviceOnState d);
   ("deviceOpen", deviceOpenState d);
   ("deviceBatteries", deviceBatteriesState d)].

(** [x === undefined] *)
Definition is_undefined (v : jsval) : bool :=
  match v with
  | JUndefined => true
  | _ => false
  end.

(** ** Runs

    What a handler and its callbacks do after the sanitizer is a sequence
    of calls on [db] and [res].  A run carries one bit of state, whether a
    response was already sent, and may end early: [res.redirect],
    [res.send] and [res.json] set a header, which throws once a response
    was sent, and an error thrown in a callback is caught by nobody, so
    nothing runs after it.  [res.render] hands such an error to [next] and
    does not throw.  An action maps the state to the events it produces
    and to the state after it, [None] when the run has ended. *)

Definition action : Type := bool -> list event * option bool.

Definition skip : action := fun sent => ([], Some sent).

Definition throw : action := fun _ => ([Uncaught], None).

Definition seq (first second : action) : action :=
  fun sent =>
    match first sent with
    | (evs, Some sent') =>
        let '(evs', after) := second sent' in ((evs ++ evs')%list, after)
    | (evs, None) => (evs, None)
    end.

Notation "a ;;; b" := (seq a b) (at level 62, right associativity).

(** [db.query(sql, params, callback)]: the statement is handed to the
    driver; the callback is sequenced after the body of the handler. *)
Definition query (sql : string) (params : list jsval) : action :=
  fun sent => ([Query sql params], Some sent).

(** A call that sets a header: it throws when a response was sent. *)
Definition set_header_and_send (r : response) : action :=
  fun sent =>
    if sent then ([Respond r; Uncaught], None) else ([Respond r], Some true).

(** [res.redirect(url)] *)
Definition redirect (url : string) : action :=
  set_header_and_send (Redirect url).

(** [res.status(status).json({ error: text })] *)
Definition json (status : Z) (text : string) : action :=
  set_header_and_send (StatusJson status text).

(** [res.statusCode = status; res.send(text)] *)
Definition send (status : Z) (text : string) : action :=
  set_header_and_send (StatusSend status text).

(** [res.render(view, locals)] *)
Definition render (view : string) (locals : list (string * jsval)) : action :=
  fun _ => ([Respond (Render view locals)], Some true).

(** The events of a run that starts with no response sent. *)
Definition events (a : action) : list event := fst (a false).

(** [if (err) { ... }] in a callback. *)
Definition on_error (a : db_answer) (then_ : action) : action :=
  match a with
  | DbError => then_
  | DbResult _ => skip
  end.

(** ** The routes

    Each module follows the handler of one route, statement by statement.
    A [Respond] event is a call of a method of [res]; when a handler makes
    several, only the first reaches the client.  The calls of the body of
    the handler come first, those of the callbacks follow in the order in
    which the driver runs the queries. *)

(** [app.post("/add-result")] *)
Module AddResult.

Definition sanitize (b : body jsval) : result (body string) :=
  device_type' <- replace_strip (device_type b) ;;
  custom_name' <- replace_strip (custom_name b) ;;
  on_off' <- empty_to_null (on_off b) ;;
  temperature' <- empty_to_null (temperature b) ;;
  volume' <- empty_to_null (volume b) ;;
  batteries_included' <- empty_to_null (batteries_included b) ;;
  open_closed' <- empty_to_null (open_closed b) ;;
  Ok {| device_type_ID := device_type_ID b;
        custom_name := custom_name';
        device_type := device_type';
        on_off := on_off';
        batteries_included := batteries_included';
        open_closed := open_closed';
        volume := volume';
        temperature := temperature';
        batteriesIncluded := batteriesIncluded b |}.

Definition isValid (b : body string) : bool :=
  run_checks
    [type_check (JStr (device_type b));
     flag_check (on_off b) (on_off b);
     flag_check (batteries_included b) (batteries_included b);
     flag_check (open_closed b) (open_closed b);
     range_check (volume b) 0 100;
     range_check (temperature b) 1 220].

(** The callback of [SELECT LAST_INSERT_ID()], which inserts the name. *)
Definition insert_name (b : body string) (last_id inserted_name : db_answer)
  : action :=
  on_error last_id (redirect "/addadevice") ;;;
  match result_value last_id with
  | JArr (JObj row :: _) =>
      query sqlQueryInsertCustomName
        [JStr (custom_name b); get_prop "LAST_INSERT_ID()" row] ;;;
      on_error inserted_name (redirect "/addadevice")
  | _ => throw
  end.

Definition handler (raw : body jsval)
    (inserted_type last_id inserted_name : db_answer) : list event :=
  match sanitize raw with
  | Throw => [Uncaught]
  | Ok b =>
      events
        (if name_out_of_schema (custom_name b)
         then json 400 name_error
         else if negb (isValid b)
         then json 400 fields_error
         else
           query sqlQueryInsert
             [JStr (device_type b); on_off b; temperature b; volume b;
              batteries_included b; open_closed b] ;;;
           query sqlQueryRecentInsertID [] ;;;
           on_error inserted_type (redirect "/addadevice") ;;;
           insert_name b last_id inserted_name)
  end.

End AddResult.

(** [app.post("/confirm-delete")] *)
Module ConfirmDelete.

Definition sanitize (b : body jsval) : result (body string) :=
  device_type' <- replace_strip (device_type b) ;;
  custom_name' <- replace_strip (custom_name b) ;;
  on_off' <- empty_to_null (on_off b) ;;
  temperature' <- empty_to_null (temperature b) ;;
  volume' <- empty_to_null (volume b) ;;
  batteries_included' <- empty_to_null (batteries_included b) ;;
  open_closed' <- empty_to_null (open_closed b) ;;
  Ok {| device_type_ID := device_type_ID b;
        custom_name := custom_name';
        device_type := device_type';
        on_off := on_off';
        batteries_included := batteries_included';
        open_closed := open_closed';
        volume := volume';
        temperature := temperature';
        batteriesIncluded := batteriesIncluded b |}.

Definition isValid (b : body string) : bool :=
  run_checks
    [type_check (JStr (device_type b));
     flag_check (on_off b) (on_off b);
     flag_check (batteries_included b) (batteries_included b);
     flag_check (open_closed b) (open_closed b);
     range_check (volume b) 0 100;
     range_check (temperature b) 1 220].

Definition handler (raw : body jsval) (all record : db_answer)
  : list event :=
  match split_fields raw with
  | Throw => [Uncaught]
  | Ok fields =>
      if is_undefined (device_type_ID fields)
      then events (redirect "index.html")
      else
        match sanitize fields with
        | Throw => [Uncaught]
        | Ok b =>
            events
              (if name_out_of_schema (custom_name b)
               then json 400 name_error
               else if negb (isValid b)
               then json 400 fields_error
               else
                 query sqlQueryAll [] ;;;
                 query sqlQueryDeviceRecord [device_type_ID b] ;;;
                 on_error all (redirect "/addadevice") ;;;
                 match record with
                 | DbError => redirect "index.html"
                 | DbResult _ =>
                     render "confirmdelete.ejs"
                       [("deviceInfo", result_value record);
                        ("deviceList", result_value all)]
                 end)
        end
  end.

End ConfirmDelete.

(** [app.post("/delete-result")] *)
Module DeleteResult.

Definition sanitize (b : body jsval) : result (body string) :=
  device_type' <- replace_strip (device_type b) ;;
  custom_name' <- replace_strip (custom_name b) ;;
  on_off' <- empty_to_null (on_off b) ;;
  temperature' <- empty_to_null (temperature b) ;;
  volume' <- empty_to_null (volume b) ;;
  batteries_included' <- empty_to_null (batteries_included b) ;;
  open_closed' <- empty_to_null (open_closed b) ;;
  Ok {| device_type_ID := device_type_ID b;
        custom_name := custom_name';
        device_type := device_type';
        on_off := on_off';
        batteries_included := batteries_included';
        open_closed := open_closed';
        volume := volume';
        temperature := temperature';
        batteriesIncluded := batteriesIncluded b |}.

Definition isValid (b : body string) : bool :=
  run_checks
    [type_check (JStr (device_type b));
     flag_check (on_off b) (on_off b);
     flag_check (batteries_included b) (batteries_included b);
     flag_check (open_closed b) (open_closed b);
     range_check (volume b) 0 100;
     range_check (temperature b) 1 220].

Definition handler (raw : body jsval) (deleted all : db_answer)
  : list event :=
  match split_fields raw with
  | Throw => [Uncaught]
  | Ok fields =>
      if is_undefined (device_type_ID fields)
      then events (redirect "index.html")
      else
        match sanitize fields with
        | Throw => [Uncaught]
        | Ok b =>
            events
              (if name_out_of_schema (custom_name b)
               then json 400 name_error
               else if negb (isValid b)
               then json 400 fields_error
               else
                 query sqlQueryDelete [device_type_ID b] ;;;
                 query sqlQueryAll [] ;;;
                 on_error deleted (redirect "index.html") ;;;
                 render "confirmdeleteresult.ejs"
                   [("deviceList", result_value all)])
        end
  end.

End DeleteResult.

(** The callback that reads [result[0]] and renders a template with the
    derived display state; shared in shape by display-status and
    retrieve-update-record. *)
Definition render_record (view key : string) (all record : db_answer)
  : action :=
  match record with
  | DbError => redirect "index.html"
  | DbResult [] => throw
  | DbResult (row :: _) =>
      render view
        ([(key, result_value record);
          ("deviceList", result_value all)]
         ++ display_locals (record_display_state row))
  end.

(** [app.get("/display-status")]; [deviceTypeID] is [req.query.deviceTypeID]. *)
Module DisplayStatus.

Definition handler (deviceTypeID : jsval) (all record : db_answer)
  : list event :=
  events
    (query sqlQueryAll [] ;;;
     query sqlQueryDevice [deviceTypeID] ;;;
     render_record "devicestatus.ejs" "deviceStatus" all record).

End DisplayStatus.

(** [app.post("/retrieve-update-record")] *)
Module RetrieveUpdateRecord.

Definition sanitize (b : body jsval) : result (body string) :=
  device_type' <- replace_strip (device_type b) ;;
  custom_name' <- replace_strip (custom_name b) ;;
  on_off' <- empty_to_null (on_off b) ;;
  temperature' <- empty_to_null (temperature b) ;;
  volume' <- empty_to_null (volume b) ;;
  batteries_included' <- empty_to_null (batteries_included b) ;;
  open_closed' <- empty_to_null (open_closed b) ;;
  Ok {| device_type_ID := device_type_ID b;
        custom_name := custom_name';
        device_type := device_type';
        on_off := on_off';
        batteries_included := batteries_included';
        open_closed := open_closed';
        volume := volume';
        temperature := temperature';
        batteriesIncluded := batteriesIncluded b |}.

Definition isValid (b : body string) : bool :=
  run_checks
    [type_check (JStr (device_type b));
     flag_check (on_off b) (on_off b);
     flag_check (batteries_included b) (batteries_included b);
     flag_check (open_closed b) (open_closed b);
     range_check (volume b) 0 100;
     range_check (temperature b) 1 220].

(** The name check sets the status and sends the text, and the handler
    goes on: there is no [return] in this branch. *)
Definition handler (raw : body jsval) (all record : db_answer)
  : list event :=
  match split_fields raw with
  | Throw => [Uncaught]
  | Ok fields =>
      if is_undefined (device_type_ID fields)
      then events (redirect "index.html")
      else
        match sanitize fields with
        | Throw => [Uncaught]
        | Ok b =>
            events
              ((if name_out_of_schema (custom_name b)
                then send 500 name_error
                else skip) ;;;
               (if negb (isValid b)
                then json 400 fields_error
                else
                  query sqlQueryAll [] ;;;
                  query sqlQueryDevice [device_type_ID b] ;;;
                  render_record "performupdate.ejs" "updateRecord"
                    all record))
        end
  end.

End RetrieveUpdateRecord.

(** [app.post("/update-result")] *)
Module UpdateResult.

Definition sanitize (b : body jsval) : result (body string) :=
  device_type' <- replace_strip (device_type b) ;;
  custom_name' <- replace_strip (custom_name b) ;;
  on_off' <- undefined_to_null (on_off b) ;;
  temperature' <- undefined_to_null (temperature b) ;;
  volume' <- undefined_to_null (volume b) ;;
  batteries_included' <- undefined_to_null (batteries_included b) ;;
  open_closed' <- undefined_to_null (open_closed b) ;;
  Ok {| device_type_ID := device_type_ID b;
        custom_name := custom_name';
        device_type := device_type';
        on_off := on_off';
        batteries_included := batteries_included';
        open_closed := open_closed';
        volume := volume';
        temperature := temperature';
        batteriesIncluded := batteriesIncluded b |}.

(** The check of [batteries_included] asks [isNaN] about
    [req.body.batteriesIncluded]. *)
Definition isValid (b : body string) : bool :=
  run_checks
    [type_check (JStr (device_type b));
     flag_check (on_off b) (on_off b);
     flag_check (batteries_included b) (batteriesIncluded b);
     flag_check (open_closed b) (open_closed b);
     range_check (volume b) 0 100;
     range_check (temperature b) 1 220].

(** [if (Array.isArray(x)) x = x[0]] *)
Definition first_of_array (v : jsval) : jsval :=
  if Array_isArray v
  then match v with
       | JArr (e :: _) => e
       | _ => JUndefined
       end
  else v.

Definition unwrap_arrays (b : body string) : body string :=
  {| device_type_ID := device_type_ID b;
     custom_name := custom_name b;
     device_type := device_type b;
     on_off := first_of_array (on_off b);
     batteries_included := first_of_array (batteries_included b);
     open_closed := first_of_array (open_closed b);
     volume := volume b;
     temperature := temperature b;
     batteriesIncluded := batteriesIncluded b |}.

(** The display state of the submitted body: [x !== null], [x === "1"]. *)
Definition body_display_state (b : body string) : display_state :=
  let valid_on_off := negb (is_null (on_off b)) in
  let valid_temperature := negb (is_null (temperature b)) in
  let valid_volume := negb (is_null (volume b)) in
  let valid_batteries_included := negb (is_null (batteries_included b)) in
  let valid_open_closed := negb (is_null (open_closed b)) in
  {| valid_on_off := valid_on_off;
     valid_temperature := valid_temperature;
     valid_volume := valid_volume;
     valid_batteries_included := valid_batteries_included;
     valid_open_closed := valid_open_closed;
     deviceOnState := state_of valid_on_off (strict_eq_str (on_off b) "1");
     deviceOpenState :=
       state_of valid_open_closed (strict_eq_str (open_closed b) "1");
     deviceBatteriesState :=
       state_of valid_batteries_included
         (strict_eq_str (batteries_included b) "1") |}.

(** What follows the two checks: the two updates and the listing, and
    then their three callbacks. *)
Definition write_and_list (b0 : body string)
    (updated_name updated_fields all : db_answer) : action :=
  let b := unwrap_arrays b0 in
  query sqlQueryCustomName [JStr (custom_name b); device_type_ID b] ;;;
  query sqlQueryUpdateFields
    [JStr (device_type b); on_off b; temperature b; volume b;
     batteries_included b; open_closed b; device_type_ID b] ;;;
  query sqlQueryAll [] ;;;
  on_error updated_name (redirect "/retrieve-update-record") ;;;
  on_error updated_fields (redirect "/retrieve-update-record") ;;;
  match all with
  | DbError => redirect "index.html"
  | DbResult _ =>
      render "performupdateresult.ejs"
        ([("updateRecord", body_object b);
          ("deviceList", result_value all)]
         ++ display_locals (body_display_state b))
  end.

(** The name check sets the status and sends the text, and the handler
    goes on: there is no [return] in this branch. *)
Definition handler (raw : body jsval)
    (updated_name updated_fields all : db_answer) : list event :=
  match sanitize raw with
  | Throw => [Uncaught]
  | Ok b =>
      events
        ((if name_out_of_schema (custom_name b)
          then send 500 name_error
          else skip) ;;;
         (if negb (isValid b)
          then json 400 fields_error
          else write_and_list b updated_name updated_fields all))
  end.

End UpdateResult.

(** [app.get("/dashboard")] *)
Module Dashboard.

Definition handler (all : db_answer) : list event :=
  [Query sqlQueryAll []]
  ++ match all with
     | DbError => [Respond (Redirect "index.html")]
     | DbResult _ =>
         [Respond (Render "dashboard.ejs" [("deviceList", result_value all)])]
     end.

End Dashboard.

(** [app.get("/")], [app.get("/about")] and [app.get("/addadevice")]:
    each renders its page and nothing else. *)
Module Pages.

Definition home : list event := [Respond (Render "index.html" [])].
Definition about : list event := [Respond (Render "about.html" [])].
Definition addadevice : list event := [Respond (Render "addadevice" [])].

End Pages.

(** ** Request bodies for concrete runs *)

(** The body the form of the add page posts: every input of the form is
    sent, an input left empty as the empty string. *)
Definition add_form (name type : string) : body jsval :=
  {| device_type_ID := JUndefined;
     custom_name := JStr name;
     device_type := JStr type;
     on_off := JStr EmptyString;
     batteries_included := JStr EmptyString;
     open_closed := JStr EmptyString;
     volume := JStr EmptyString;
     temperature := JStr EmptyString;
     batteriesIncluded := JUndefined |}.

(** A body of the update page: the inputs that do not apply to the device
    are not part of the form, and their keys are missing. *)
Definition update_form (id name type : string) : body jsval :=
  {| device_type_ID := JStr id;
     custom_name := JStr name;
     device_type := JStr type;
     on_off := JUndefined;
     batteries_included := JUndefined;
     open_closed := JUndefined;
     volume := JUndefined;
     temperature := JUndefined;
     batteriesIncluded := JUndefined |}.

Definition with_volume {T : Type} (v : jsval) (b : body T) : body T :=
  {| device_type_ID := device_type_ID b;
     custom_name := custom_name b;
     device_type := device_type b;
     on_off := on_off b;
     batteries_included := batteries_included b;
     open_closed := open_closed b;
     volume := v;
     temperature := temperature b;
     batteriesIncluded := batteriesIncluded b |}.

Definition with_on_off {T : Type} (v : jsval) (b : body T) : body T :=
  {| device_type_ID := device_type_ID b;
     custom_name := custom_name b;
     device_type := device_type b;
     on_off := v;
     batteries_included := batteries_included b;
     open_closed := open_closed b;
     volume := volume b;
     temperature := temperature b;
     batteriesIncluded := batteriesIncluded b |}.

Definition with_device_type_ID {T : Type} (v : jsval) (b : body T) : body T :=
  {| device_type_ID := v;
     custom_name := custom_name b;
     device_type := device_type b;
     on_off := on_off b;
     batteries_included := batteries_included b;
     open_closed := open_closed b;
     volume := volume b;
     temperature := temperature b;
     batteriesIncluded := batteriesIncluded b |}.

(** Answers of the database: a statement that succeeds without rows, and
    the answer to [SELECT LAST_INSERT_ID()]. *)
Definition done : db_answer := DbResult [].
Definition last_insert_id (id : Z) : db_answer :=
  DbResult [[("LAST_INSERT_ID()", JNum id)]].

(** ** Predicates of the statements *)

(** A string is in the language of [[p]+] when it is not empty and all
    its characters are in the class. *)
Definition nonempty_all (p : ascii -> bool) (s : string) : bool :=
  match s with
  | EmptyString => false
  | String _ _ => forall_chars p s
  end.

(** A sanitized optional field is [null] or a string. *)
Definition null_or_string (v : jsval) : bool := is_null v || is_string v.

Definition optional_fields {T : Type} (b : body T) : list jsval :=
  [on_off b; temperature b; volume b; batteries_included b; open_closed b].

Definition sanitized (b : body string) : bool :=
  forallb null_or_string (optional_fields b).

(** The field rule as the specification words it: an absent field
    passes; a present one must be numeric and parse as an integer of its
    range. *)
Definition spec_field_ok (lo hi : Z) (v : jsval) : bool :=
  is_null v
  || (negb (isNaN v) && num_ge (parseInt v) lo && num_le (parseInt v) hi).

(** A response that reports a validation error. *)
Definition is_rejection (e : event) : bool :=
  match e with
  | Respond (StatusJson _ _) | Respond (StatusSend _ _) => true
  | _ => false
  end.

(** A flag is true exactly when the stored column is not [null]. *)
Definition flag_rule (column flag : jsval) : Prop :=
  (column <> JNull /\ flag = JBool true)
  \/ (column = JNull /\ flag = JBool false).

(** A display state is [0] when the column is [null], and otherwise the
    boolean "the stored value is the number 1". *)
Definition state_rule (column state : jsval) : Prop :=
  (column = JNull /\ state = JNum 0)
  \/ (column = JNum 1 /\ state = JBool true)
  \/ (column <> JNull /\ column <> JNum 1 /\ state = JBool false).

(** A raw field as the specification sees it: a string or absent. *)
Definition raw_field (v : option string) : jsval :=
  match v with
  | Some s => JStr s
  | None => JUndefined
  end.

(** The optional-field rule as the specification words it: an empty or
    absent input becomes [null], any other input loses the characters
    outside [[A-Za-z0-9 ]]. *)
Definition spec_optional (v : option string) : jsval :=
  match v with
  | None => JNull
  | Some s => if String.eqb s EmptyString then JNull else JStr (strip s)
  end.

(** What the handlers do to a field. *)
Definition required_rule (raw : jsval) (clean : string) : Prop :=
  exists s, raw = JStr s /\ clean = strip s.

Definition empty_rule (raw clean : jsval) : Prop :=
  (raw = JStr EmptyString /\ clean = JNull)
  \/ exists s, s <> EmptyString /\ raw = JStr s /\ clean = JStr (strip s).

Definition absent_rule (raw clean : jsval) : Prop :=
  (raw = JUndefined /\ clean = JNull)
  \/ exists s, raw = JStr s /\ clean = JStr (strip s).

Definition cleaned (optional_rule : jsval -> jsval -> Prop)
    (raw : body jsval) (b : body string) : Prop :=
  required_rule (device_type raw) (device_type b)
  /\ required_rule (custom_name raw) (custom_name b)
  /\ optional_rule (on_off raw) (on_off b)
  /\ optional_rule (temperature raw) (temperature b)
  /\ optional_rule (volume raw) (volume b)
  /\ optional_rule (batteries_included raw) (batteries_included b)
  /\ optional_rule (open_closed raw) (open_closed b)
  /\ device_type_ID b = device_type_ID raw
  /\ batteriesIncluded b = batteriesIncluded raw.

(** ** Predicates of the further properties *)

(** The response that reports invalid data fields. *)
Definition sends_fields_error (e : event) : bool :=
  match e with
  | Respond (StatusJson _ msg) => String.eqb msg fields_error
  | _ => false
  end.

Definition is_response (e : event) : bool :=
  match e with
  | Respond _ => true
  | _ => false
  end.

(** The number of commas of a string, and its text up to the first one. *)
Fixpoint count_commas (s : string) : nat :=
  match s with
  | EmptyString => 0%nat
  | String c s' =>
      if Ascii.eqb c "," then S (count_commas s') else count_commas s'
  end.

Fixpoint before_comma (s : string) : string :=
  match s with
  | EmptyString => EmptyString
  | String c s' =>
      if Ascii.eqb c "," then EmptyString else String c (before_comma s')
  end.

(** A query parameter that went through the sanitizer: [null], or a
    string of characters of [[A-Za-z0-9 ]]. *)
Definition clean_value (v : jsval) : bool :=
  match v with
  | JNull => true
  | JStr s => forall_chars is_alnum_space s
  | _ => false
  end.

(** The body that carries a record as one comma-joined field, and the
    body that carries it as eight discrete fields. *)
Definition joined_body (pieces : list string) (extra : jsval) : body jsval :=
  {| device_type_ID := JStr (join_comma pieces);
     custom_name := JUndefined;
     device_type := JUndefined;
     on_off := JUndefined;
     batteries_included := JUndefined;
     open_closed := JUndefined;
     volume := JUndefined;
     temperature := JUndefined;
     batteriesIncluded := extra |}.

Definition discrete_body (pieces : list string) (extra : jsval) : body jsval :=
  {| device_type_ID := index pieces 0;
     custom_name := index pieces 1;
     device_type := index pieces 2;
     on_off := index pieces 3;
     batteries_included := index pieces 4;
     open_closed := index pieces 5;
     volume := index pieces 6;
     temperature := index pieces 7;
     batteriesIncluded := extra |}.

(** The identifier a delete request carries: the text of a string
    [device_type_ID] up to its first comma, any other value as it is. *)
Definition request_id (raw : body jsval) : jsval :=
  match device_type_ID raw with
  | JStr s => JStr (before_comma s)
  | v => v
  end.

(** The display state the update route derives from a submitted field:
    [0] when the field is absent, else whether its sanitized text is "1". *)
Definition submitted_state (v : jsval) : jsval :=
  match v with
  | JStr s => JBool (String.eqb (strip s) "1")
  | _ => JNum 0
  end.

(** A page handed to the client. *)
Definition is_render (e : event) : bool :=
  match e with
  | Respond (Render _ _) => true
  | _ => false
  end.

(** * Properties *)

(** ** Concrete runs of the JavaScript operations *)

Example parseInt_runs :
  map parseInt [JStr "150"; JStr " 0x1f"; JStr "12ab"; JStr "-7"; JStr "abc";
                JStr EmptyString; JNull; JArr [JStr "1"; JStr "2"]]
  = [Some 150; Some 31; Some 12; Some (-7); None; None; None; Some 1].
Proof. reflexivity. Qed.

Example isNaN_runs :
  map isNaN [JStr "150"; JStr "1e5"; JStr " 12 "; JStr "12ab"; JStr "0x1F";
             JStr "-0x1F"; JStr "Infinity"; JStr "1."; JStr "."; JStr ".5";
             JStr EmptyString; JUndefined; JNull; JArr []; JArr [JStr "5"];
             JArr [JStr "5"; JStr "6"]; JObj []]
  = [false; false; false; true; false;
     true; false; false; true; false;
     false; true; false; false; false;
     true; true].
Proof. reflexivity. Qed.

Example to_string_runs :
  map to_string [JNum (-15); JNum 0; JArr [JStr "a"; JNull; JStr "b"]; JObj []]
  = ["-15"; "0"; "a,,b"; "[object Object]"].
Proof. reflexivity. Qed.

Example split_comma_runs :
  map split_comma ["7,lamp01,Lamp"; "a,,b"; ","; "abc"]
  = [["7"; "lamp01"; "Lamp"]; ["a"; EmptyString; "b"];
     [EmptyString; EmptyString]; ["abc"]].
Proof. reflexivity. Qed.

Example strip_runs :
  map strip ["lamp_01!"; "Living room"; "<b>1</b>"; "_"]
  = ["lamp01"; "Living room"; "b1b"; EmptyString].
Proof. reflexivity. Qed.

Example custom_name_regex_runs :
  map (regex_test custom_name_regex)
    ["lamp_01"; "ab"; EmptyString; "a b"; "a-b"]
  = [true; true; false; false; false].
Proof. reflexivity. Qed.

Example sanitize_add_form :
  AddResult.sanitize (with_on_off (JStr "1") (add_form "lamp_01" "Lamp"))
  = Ok (Body JUndefined "lamp01" "Lamp" (JStr "1") JNull JNull JNull JNull
          JUndefined).
Proof. reflexivity. Qed.

(** A redirect after a response was sent throws and ends the run: the
    listing callback of the update route does not run after two failed
    updates, and the second callback of confirm-delete throws after the
    first has redirected.  A render after a redirect does not throw. *)
Example second_redirect_throws :
  filter is_response
    (UpdateResult.handler (update_form "7" "lamp01" "Lamp")
       DbError DbError done)
  = [Respond (Redirect "/retrieve-update-record");
     Respond (Redirect "/retrieve-update-record")]
  /\ last (UpdateResult.handler (update_form "7" "lamp01" "Lamp")
             DbError DbError done) (Respond (Redirect "index.html"))
     = Uncaught
  /\ ConfirmDelete.handler
       (with_device_type_ID (JStr "7") (add_form "lamp01" "Lamp"))
       DbError DbError
     = [Query sqlQueryAll []; Query sqlQueryDeviceRecord [JStr "7"];
        Respond (Redirect "/addadevice"); Respond (Redirect "index.html");
        Uncaught]
  /\ DeleteResult.handler
       (with_device_type_ID (JStr "7") (add_form "lamp01" "Lamp"))
       DbError done
     = [Query sqlQueryDelete [JStr "7"]; Query sqlQueryAll [];
        Respond (Redirect "index.html");
        Respond (Render "confirmdeleteresult.ejs"
                   [("deviceList", JArr [])])].
Proof. repeat split. Qed.

(** ** Strings *)

Lemma append_empty_r (s : string) : (s ++ EmptyString)%string = s.
Proof.
  induction s as [|c s IH]; simpl; [reflexivity | now rewrite IH].
Qed.

Lemma append_is_empty (s1 s2 : string) :
  (s1 ++ s2)%string = EmptyString -> s1 = EmptyString /\ s2 = EmptyString.
Proof.
  destruct s1; simpl; intros H; [now split | discriminate].
Qed.

Lemma forall_chars_app p (s1 s2 : string) :
  forall_chars p (s1 ++ s2) = forall_chars p s1 && forall_chars p s2.
Proof.
  induction s1 as [|c s1 IH]; simpl; [reflexivity|].
  now rewrite IH, andb_assoc.
Qed.

(** ** The matcher decides the language *)

Lemma nullable_sound r : nullable r = true -> Matches r EmptyString.
Proof.
  induction r; simpl; intros H; try discriminate.
  - constructor.
  - apply andb_true_iff in H as [H1 H2].
    change EmptyString with (EmptyString ++ EmptyString)%string.
    constructor; auto.
  - apply orb_true_iff in H as [H|H]; [apply MAltL | apply MAltR]; auto.
  - constructor.
Qed.

Lemma nullable_complete r s :
  Matches r s -> s = EmptyString -> nullable r = true.
Proof.
  induction 1; intros E; simpl; try reflexivity; try discriminate.
  - apply append_is_empty in E as [E1 E2].
    now rewrite IHMatches1, IHMatches2.
  - now rewrite IHMatches.
  - rewrite IHMatches by assumption. apply orb_true_r.
Qed.

Lemma deriv_sound r : forall c s, Matches (deriv c r) s -> Matches r (String c s).
Proof.
  induction r; simpl; intros c s H.
  - inversion H.
  - inversion H.
  - destruct (p c) eqn:Hp; inversion H; subst. now constructor.
  - assert (Hcat : forall t, Matches (Cat (deriv c r1) r2) t ->
                             Matches (Cat r1 r2) (String c t)).
    { intros t Ht. inversion Ht; subst.
      change (String c (s1 ++ s2)) with (String c s1 ++ s2)%string.
      constructor; auto. }
    destruct (nullable r1) eqn:Hn; [|now apply Hcat].
    inversion H; subst; [now apply Hcat|].
    change (String c s) with (EmptyString ++ String c s)%string.
    constructor; [now apply nullable_sound | auto].
  - inversion H; subst; [apply MAltL | apply MAltR]; auto.
  - inversion H; subst.
    change (String c (s1 ++ s2)) with (String c s1 ++ s2)%string.
    constructor; auto.
Qed.

Lemma deriv_complete r s :
  Matches r s -> forall c s', s = String c s' -> Matches (deriv c r) s'.
Proof.
  induction 1; intros a t E; simpl; try discriminate.
  - injection E as -> <-. rewrite H. constructor.
  - destruct s1 as [|b s1]; simpl in E.
    + rewrite (nullable_complete H eq_refl).
      apply MAltR. now apply IHMatches2.
    + injection E as -> <-.
      assert (Matches (Cat (deriv a r1) r2) (s1 ++ s2))
        by (constructor; [now apply IHMatches1 | assumption]).
      destruct (nullable r1); [now apply MAltL | assumption].
  - apply MAltL. now apply IHMatches.
  - apply MAltR. now apply IHMatches.
  - destruct s1 as [|b s1]; simpl in E.
    + now apply IHMatches2.
    + injection E as -> <-.
      constructor; [now apply IHMatches1 | assumption].
Qed.

Lemma regex_test_Matches s : forall r, regex_test r s = true <-> Matches r s.
Proof.
  induction s as [|c s IH]; intros r; simpl.
  - split; [apply nullable_sound | intros H; now apply (nullable_complete H)].
  - rewrite IH. split; [apply deriv_sound|].
    intros H. now apply (deriv_complete H).
Qed.

(** ** The language of the custom-name pattern *)

Lemma Matches_star_class p s :
  Matches (Star (Class p)) s <-> forall_chars p s = true.
Proof.
  split.
  - intros H. remember (Star (Class p)) as r eqn:Er.
    induction H; try discriminate; [reflexivity|].
    injection Er as ->. inversion H as [|q c Hc| | | | |]; subst. simpl.
    rewrite IHMatches2 by reflexivity. now rewrite Hc.
  - induction s as [|c s IH]; simpl; intros H; [constructor|].
    apply andb_true_iff in H as [Hc Hs].
    change (String c s) with (String c EmptyString ++ s)%string.
    constructor; [now constructor | auto].
Qed.

Lemma Matches_plus_class p s :
  Matches (Plus (Class p)) s <-> nonempty_all p s = true.
Proof.
  unfold Plus. split.
  - intros H. inversion H as [| |q1 q2 s1 s2 H1 H2| | | |]; subst.
    inversion H1 as [|q c Hc| | | | |]; subst. simpl.
    apply Matches_star_class in H2. now rewrite Hc, H2.
  - destruct s as [|c s]; simpl; [discriminate|]. intros H.
    apply andb_true_iff in H as [Hc Hs].
    change (String c s) with (String c EmptyString ++ s)%string.
    constructor; [now constructor | now apply Matches_star_class].
Qed.

Lemma nonempty_all_forall p s : nonempty_all p s = true -> forall_chars p s = true.
Proof. destruct s; simpl; [discriminate | auto]. Qed.

Lemma Matches_star_plus_class p s :
  Matches (Star (Plus (Class p))) s -> forall_chars p s = true.
Proof.
  intros H. remember (Star (Plus (Class p))) as r eqn:Er.
  induction H; try discriminate; [reflexivity|].
  injection Er as ->. rewrite forall_chars_app.
  rewrite IHMatches2 by reflexivity.
  apply Matches_plus_class, nonempty_all_forall in H. now rewrite H.
Qed.

Lemma custom_name_language s :
  Matches custom_name_regex s <-> Matches word_plus_regex s.
Proof.
  unfold custom_name_regex, word_plus_regex. split.
  - intros H. inversion H as [| |q1 q2 s1 s2 H1 H2| | | |]; subst.
    apply Matches_plus_class in H1. apply Matches_star_plus_class in H2.
    apply Matches_plus_class.
    destruct s1 as [|c s1]; simpl in *; [discriminate|].
    rewrite forall_chars_app.
    apply andb_true_iff in H1 as [Hc Hs]. now rewrite Hc, Hs, H2.
  - intros H. rewrite <- (append_empty_r s).
    constructor; [assumption | constructor].
Qed.

Lemma custom_name_regex_test s :
  regex_test custom_name_regex s = regex_test word_plus_regex s.
Proof.
  apply eq_iff_eq_true.
  rewrite !regex_test_Matches. apply custom_name_language.
Qed.

Lemma word_plus_regex_test s :
  regex_test word_plus_regex s = nonempty_all is_word s.
Proof.
  apply eq_iff_eq_true.
  rewrite regex_test_Matches. apply Matches_plus_class.
Qed.

(** ** The sanitizer *)

Lemma strip_alnum_space s : forall_chars is_alnum_space (strip s) = true.
Proof.
  induction s as [|c s IH]; simpl; [reflexivity|].
  destruct (is_alnum_space c) eqn:Hc; simpl; [now rewrite Hc|assumption].
Qed.

Lemma strip_fixed s : forall_chars is_alnum_space s = true -> strip s = s.
Proof.
  induction s as [|c s IH]; simpl; [reflexivity|]. intros H.
  apply andb_true_iff in H as [Hc Hs]. now rewrite Hc, IH.
Qed.

Lemma strip_strip s : strip (strip s) = strip s.
Proof. apply strip_fixed, strip_alnum_space. Qed.


Lemma strict_eq_str_true v t : strict_eq_str v t = true <-> v = JStr t.
Proof.
  destruct v; simpl; try (split; [discriminate|intros [=]]).
  rewrite String.eqb_eq. split; [now intros ->|now intros [= ->]].
Qed.

Lemma replace_strip_Ok v t :
  replace_strip v = Ok t <-> exists s, v = JStr s /\ t = strip s.
Proof.
  destruct v; simpl; split;
    try discriminate; try (intros (s0 & [=] & _); fail).
  - intros [= <-]. now exists s.
  - intros (s0 & [= <-] & ->). reflexivity.
Qed.

Lemma empty_to_null_Ok v w :
  empty_to_null v = Ok w <->
  (v = JStr EmptyString /\ w = JNull)
  \/ exists s, s <> EmptyString /\ v = JStr s /\ w = JStr (strip s).
Proof.
  unfold empty_to_null.
  destruct (strict_eq_str v EmptyString) eqn:E.
  - apply strict_eq_str_true in E. subst v. split.
    + intros [= <-]. now left.
    + intros [[_ ->]|(s & Hs & [= <-] & _)]; [reflexivity | now elim Hs].
  - assert (Hv : v <> JStr EmptyString)
      by (intros Hv; apply strict_eq_str_true in Hv; congruence).
    destruct v; simpl; split; try discriminate;
      try (intros [[[=] _]|(s0 & _ & [=] & _)]; fail).
    + intros [= <-]. right. exists s. repeat split. congruence.
    + intros [[Hs _]|(s0 & _ & [= <-] & ->)]; [contradiction|reflexivity].
Qed.

Lemma undefined_to_null_Ok v w :
  undefined_to_null v = Ok w <->
  (v = JUndefined /\ w = JNull)
  \/ exists s, v = JStr s /\ w = JStr (strip s).
Proof.
  destruct v; simpl; split; try discriminate;
    try (intros [[[=] _]|(s0 & [=] & _)]; fail).
  - intros [= <-]. now left.
  - intros [[_ ->]|(s0 & [=] & _)]. reflexivity.
  - intros [= <-]. right. now exists s.
  - intros [[[=] _]|(s0 & [= <-] & ->)]. reflexivity.
Qed.

Lemma empty_to_null_shape v w : empty_to_null v = Ok w -> null_or_string w = true.
Proof.
  intros H. apply empty_to_null_Ok in H as [[_ ->]|(s & _ & _ & ->)]; reflexivity.
Qed.

Lemma undefined_to_null_shape v w :
  undefined_to_null v = Ok w -> null_or_string w = true.
Proof.
  intros H. apply undefined_to_null_Ok in H as [[_ ->]|(s & _ & ->)]; reflexivity.
Qed.

(** Reading a run of a sanitizer field by field. *)
Ltac run_binds H :=
  cbv beta delta [bind] in H;
  repeat match type of H with
         | context [match ?m with Ok _ => _ | Throw => _ end] =>
             destruct m eqn:?; try discriminate H
         end.

Lemma AddResult_sanitize_Ok raw b :
  AddResult.sanitize raw = Ok b <->
  replace_strip (device_type raw) = Ok (device_type b)
  /\ replace_strip (custom_name raw) = Ok (custom_name b)
  /\ empty_to_null (on_off raw) = Ok (on_off b)
  /\ empty_to_null (temperature raw) = Ok (temperature b)
  /\ empty_to_null (volume raw) = Ok (volume b)
  /\ empty_to_null (batteries_included raw) = Ok (batteries_included b)
  /\ empty_to_null (open_closed raw) = Ok (open_closed b)
  /\ device_type_ID b = device_type_ID raw
  /\ batteriesIncluded b = batteriesIncluded raw.
Proof.
  unfold AddResult.sanitize. split.
  - intros H. run_binds H. injection H as <-. simpl. repeat split.
  - intros (H1 & H2 & H3 & H4 & H5 & H6 & H7 & H8 & H9).
    rewrite H1, H2, H3, H4, H5, H6, H7. simpl.
    destruct b; simpl in *. now subst.
Qed.

Lemma UpdateResult_sanitize_Ok raw b :
  UpdateResult.sanitize raw = Ok b <->
  replace_strip (device_type raw) = Ok (device_type b)
  /\ replace_strip (custom_name raw) = Ok (custom_name b)
  /\ undefined_to_null (on_off raw) = Ok (on_off b)
  /\ undefined_to_null (temperature raw) = Ok (temperature b)
  /\ undefined_to_null (volume raw) = Ok (volume b)
  /\ undefined_to_null (batteries_included raw) = Ok (batteries_included b)
  /\ undefined_to_null (open_closed raw) = Ok (open_closed b)
  /\ device_type_ID b = device_type_ID raw
  /\ batteriesIncluded b = batteriesIncluded raw.
Proof.
  unfold UpdateResult.sanitize. split.
  - intros H. run_binds H. injection H as <-. simpl. repeat split.
  - intros (H1 & H2 & H3 & H4 & H5 & H6 & H7 & H8 & H9).
    rewrite H1, H2, H3, H4, H5, H6, H7. simpl.
    destruct b; simpl in *. now subst.
Qed.

(** The four handlers that test for the empty string run one sanitizer
    and one list of field checks. *)
Lemma same_sanitizer raw :
  ConfirmDelete.sanitize raw = AddResult.sanitize raw
  /\ DeleteResult.sanitize raw = AddResult.sanitize raw
  /\ RetrieveUpdateRecord.sanitize raw = AddResult.sanitize raw.
Proof. repeat split. Qed.

Lemma same_checks b :
  ConfirmDelete.isValid b = AddResult.isValid b
  /\ DeleteResult.isValid b = AddResult.isValid b
  /\ RetrieveUpdateRecord.isValid b = AddResult.isValid b.
Proof. repeat split. Qed.

Lemma AddResult_sanitized raw b : AddResult.sanitize raw = Ok b -> sanitized b = true.
Proof.
  intros H. apply AddResult_sanitize_Ok in H
    as (_ & _ & H3 & H4 & H5 & H6 & H7 & _).
  unfold sanitized. simpl.
  now rewrite (empty_to_null_shape _ H3), (empty_to_null_shape _ H4),
    (empty_to_null_shape _ H5), (empty_to_null_shape _ H6),
    (empty_to_null_shape _ H7).
Qed.

Lemma UpdateResult_sanitized raw b :
  UpdateResult.sanitize raw = Ok b -> sanitized b = true.
Proof.
  intros H. apply UpdateResult_sanitize_Ok in H
    as (_ & _ & H3 & H4 & H5 & H6 & H7 & _).
  unfold sanitized. simpl.
  now rewrite (undefined_to_null_shape _ H3), (undefined_to_null_shape _ H4),
    (undefined_to_null_shape _ H5), (undefined_to_null_shape _ H6),
    (undefined_to_null_shape _ H7).
Qed.

(** ** The field checks *)

Lemma flag_check_null_or_string x y :
  null_or_string x = true -> flag_check x y = false.
Proof. destruct x; try discriminate; reflexivity. Qed.

Lemma range_check_null_or_string x lo hi :
  null_or_string x = true -> range_check x lo hi = false.
Proof. destruct x; try discriminate; reflexivity. Qed.

Lemma sanitized_fields b :
  sanitized b = true ->
  null_or_string (on_off b) = true /\ null_or_string (temperature b) = true
  /\ null_or_string (volume b) = true
  /\ null_or_string (batteries_included b) = true
  /\ null_or_string (open_closed b) = true.
Proof.
  unfold sanitized. simpl. rewrite !andb_true_iff. tauto.
Qed.

(** No check fires on a sanitized body: each one asks first for a value
    that is neither [null] nor a string. *)
Lemma AddResult_isValid_sanitized b : sanitized b = true -> AddResult.isValid b = true.
Proof.
  intros H. apply sanitized_fields in H as (H1 & H2 & H3 & H4 & H5).
  unfold AddResult.isValid.
  now rewrite !flag_check_null_or_string, !range_check_null_or_string.
Qed.

Lemma UpdateResult_isValid_sanitized b :
  sanitized b = true -> UpdateResult.isValid b = true.
Proof.
  intros H. apply sanitized_fields in H as (H1 & H2 & H3 & H4 & H5).
  unfold UpdateResult.isValid.
  now rewrite !flag_check_null_or_string, !range_check_null_or_string.
Qed.

(** ** The custom-name check *)

Lemma name_out_of_schema_iff s :
  name_out_of_schema s = true <->
  nonempty_all is_word s = false \/ js_length s < 5 \/ 16 < js_length s.
Proof.
  unfold name_out_of_schema.
  rewrite custom_name_regex_test, word_plus_regex_test.
  rewrite !orb_true_iff, negb_true_iff, !Z.ltb_lt. tauto.
Qed.

Lemma name_in_schema_iff s :
  name_out_of_schema s = false <->
  nonempty_all is_word s = true /\ 5 <= js_length s <= 16.
Proof.
  unfold name_out_of_schema.
  rewrite custom_name_regex_test, word_plus_regex_test.
  rewrite !orb_false_iff, negb_false_iff, !Z.ltb_ge. tauto.
Qed.

Lemma word_and_space_alnum c :
  is_word c = true -> is_alnum_space c = true -> is_alnum c = true.
Proof.
  unfold is_word, is_alnum_space. destruct (is_alnum c); [reflexivity|].
  simpl. rewrite !Ascii.eqb_eq. intros -> [=].
Qed.

Lemma forall_chars_both (p q r : ascii -> bool) s :
  (forall c, p c = true -> q c = true -> r c = true) ->
  forall_chars p s = true -> forall_chars q s = true ->
  forall_chars r s = true.
Proof.
  intros Hr. induction s as [|c s IH]; simpl; [reflexivity|].
  rewrite !andb_true_iff. intros [Hp Hps] [Hq Hqs].
  split; [now apply Hr | now apply IH].
Qed.

Lemma forall_chars_excludes (p q : ascii -> bool) s :
  (forall c, p c = true -> q c = false) ->
  forall_chars p s = true -> exists_char q s = false.
Proof.
  intros Hq. induction s as [|c s IH]; simpl; [reflexivity|].
  rewrite andb_true_iff. intros [Hp Hps]. now rewrite (Hq c Hp), IH.
Qed.

Lemma alnum_not_underscore c : is_alnum c = true -> Ascii.eqb "_" c = false.
Proof.
  intros H. destruct (Ascii.eqb_spec "_" c) as [<-|]; [discriminate|reflexivity].
Qed.

Lemma alnum_not_space c : is_alnum c = true -> Ascii.eqb " " c = false.
Proof.
  intros H. destruct (Ascii.eqb_spec " " c) as [<-|]; [discriminate|reflexivity].
Qed.

(** A stripped name that passes the check holds letters and digits only. *)
Lemma stripped_name_in_schema r :
  name_out_of_schema (strip r) = false ->
  forall_chars is_alnum (strip r) = true /\ 5 <= js_length (strip r) <= 16.
Proof.
  intros H. apply name_in_schema_iff in H as [Hw Hlen]. split; [|assumption].
  apply (forall_chars_both is_word is_alnum_space).
  - apply word_and_space_alnum.
  - now apply nonempty_all_forall.
  - apply strip_alnum_space.
Qed.

(** The statements are told apart by their text. *)
Lemma sql_differs (s t : string) : String.eqb s t = false -> s <> t.
Proof. intros H E. apply String.eqb_eq in E. congruence. Qed.

Lemma Query_eq s p t q : Query s p = Query t q -> s = t /\ p = q.
Proof. intros [= -> ->]. now split. Qed.

(** Finds the statement [sql] among the events listed in [Hin]. *)
Ltac find_query Hin :=
  simpl in Hin;
  repeat match type of Hin with
         | _ \/ _ => destruct Hin as [Hin|Hin]
         | False => contradiction
         | Query _ _ = Query _ _ =>
             let Hsql := fresh "Hsql" in
             let Hpar := fresh "Hpar" in
             apply Query_eq in Hin as [Hsql Hpar];
             first [ exfalso; revert Hsql; apply sql_differs; reflexivity
                   | clear Hsql; subst ]
         | _ = _ => discriminate Hin
         end.

(** The create handler after a successful run of the sanitizer. *)
Lemma AddResult_handler_sanitized raw b a1 a2 a3 :
  AddResult.sanitize raw = Ok b ->
  AddResult.handler raw a1 a2 a3 =
  if name_out_of_schema (custom_name b)
  then [Respond (StatusJson 400 name_error)]
  else Query sqlQueryInsert
         [JStr (device_type b); on_off b; temperature b; volume b;
          batteries_included b; open_closed b]
       :: Query sqlQueryRecentInsertID []
       :: events (on_error a1 (redirect "/addadevice") ;;;
                  AddResult.insert_name b a2 a3).
Proof.
  intros Hs. unfold AddResult.handler. rewrite Hs.
  rewrite (AddResult_isValid_sanitized _ (AddResult_sanitized _ Hs)).
  destruct (name_out_of_schema (custom_name b)); [reflexivity|].
  destruct a1 as [|r1], a2 as [|[|row rows]], a3 as [|r3]; reflexivity.
Qed.

(** * The claims *)

(** C3.  On the create route the custom-name check answers with status
    400 and the schema/length text exactly when the sanitized custom name
    is not in the language of [^[A-Za-z0-9_]+$] or its length is outside
    [5,16].  The pattern of the code,
    [/^[a-zA-Z0-9_]+([a-zA-Z0-9_]+)*$/], has the language of
    [^[A-Za-z0-9_]+$]: the non-empty strings of word characters.  A create
    request whose custom name is "ab" is answered with this rejection and
    no query is issued for it. *)
Theorem custom_name_check_on_create :
  (forall s, regex_test custom_name_regex s = regex_test word_plus_regex s)
  /\ (forall s, regex_test word_plus_regex s = nonempty_all is_word s)
  /\ (forall raw b a1 a2 a3,
         AddResult.sanitize raw = Ok b ->
         (AddResult.handler raw a1 a2 a3
          = [Respond (StatusJson 400 name_error)]
          <-> regex_test word_plus_regex (custom_name b) = false
              \/ js_length (custom_name b) < 5
              \/ 16 < js_length (custom_name b)))
  /\ (forall raw a1 a2 a3,
         custom_name raw = JStr "ab" ->
         existsb is_query (AddResult.handler raw a1 a2 a3) = false
         /\ (forall b, AddResult.sanitize raw = Ok b ->
                       AddResult.handler raw a1 a2 a3
                       = [Respond (StatusJson 400 name_error)])).
Proof.
  split; [exact custom_name_regex_test|].
  split; [exact word_plus_regex_test|].
  split.
  - intros raw b a1 a2 a3 Hs.
    rewrite (AddResult_handler_sanitized _ a1 a2 a3 Hs).
    rewrite word_plus_regex_test, <- name_out_of_schema_iff.
    destruct (name_out_of_schema (custom_name b)).
    + tauto.
    + split; [discriminate|discriminate].
  - intros raw a1 a2 a3 Hname.
    destruct (AddResult.sanitize raw) as [b|] eqn:Hs.
    + assert (Hb : custom_name b = "ab").
      { apply AddResult_sanitize_Ok in Hs as (_ & H2 & _).
        rewrite Hname in H2. simpl in H2. now injection H2. }
      rewrite (AddResult_handler_sanitized _ a1 a2 a3 Hs), Hb.
      split; [reflexivity|]. intros b' _. reflexivity.
    + unfold AddResult.handler. rewrite Hs.
      split; [reflexivity|]. intros b' [=].
Qed.

Lemma custom_name_check_on_create_witness :
  AddResult.handler (add_form "ab" "Lamp") done done done
  = [Respond (StatusJson 400 name_error)]
  /\ existsb is_query (AddResult.handler (add_form "ab" "Lamp") done done done)
     = false.
Proof.
  destruct custom_name_check_on_create as (_ & _ & Hiff & Hab).
  split.
  - apply (Hiff (add_form "ab" "Lamp")
             (Body JUndefined "ab" "Lamp" JNull JNull JNull JNull JNull
                JUndefined)).
    + reflexivity.
    + right. left. vm_compute. reflexivity.
  - apply (Hab (add_form "ab" "Lamp")). reflexivity.
Defined.

(** C10.  Every custom name that the create handler hands to
    [INSERT INTO devicenames] is the stripped copy of the submitted name,
    consists of letters and digits only and has a length in [5,16]: it
    holds neither an underscore, which the sanitizer removes, nor a space,
    which the pattern refuses. *)
Theorem stored_custom_name_is_alphanumeric raw a1 a2 a3 params :
  In (Query sqlQueryInsertCustomName params) (AddResult.handler raw a1 a2 a3) ->
  exists r id,
    custom_name raw = JStr r
    /\ params = [JStr (strip r); id]
    /\ forall_chars is_alnum (strip r) = true
    /\ 5 <= js_length (strip r) <= 16
    /\ exists_char (Ascii.eqb "_") (strip r) = false
    /\ exists_char (Ascii.eqb " ") (strip r) = false.
Proof.
  destruct (AddResult.sanitize raw) as [b|] eqn:Hs.
  2:{ unfold AddResult.handler. rewrite Hs. intros [H|[]]. discriminate. }
  rewrite (AddResult_handler_sanitized _ a1 a2 a3 Hs).
  pose proof Hs as Hfields.
  apply AddResult_sanitize_Ok in Hfields as (_ & Hname & _).
  apply replace_strip_Ok in Hname as (r & Hraw & Hb).
  destruct (name_out_of_schema (custom_name b)) eqn:Hcheck.
  { intros [H|[]]. discriminate. }
  rewrite Hb in Hcheck.
  apply stripped_name_in_schema in Hcheck as [Halnum Hlen].
  assert (Hunder : exists_char (Ascii.eqb "_") (strip r) = false).
  { apply (forall_chars_excludes is_alnum); [|assumption].
    apply alnum_not_underscore. }
  assert (Hspace : exists_char (Ascii.eqb " ") (strip r) = false).
  { apply (forall_chars_excludes is_alnum); [|assumption].
    apply alnum_not_space. }
  intros Hin.
  destruct a1 as [|r1], a2 as [|[|row rows]], a3 as [|r3];
    find_query Hin; rewrite Hb;
    exists r, (get_prop "LAST_INSERT_ID()" row);
    repeat split; try assumption; apply Hlen.
Qed.

Lemma stored_custom_name_is_alphanumeric_witness :
  exists r id,
    custom_name (add_form "lamp_01!" "Lamp") = JStr r
    /\ [JStr "lamp01"; JNum 8] = [JStr (strip r); id]
    /\ forall_chars is_alnum (strip r) = true
    /\ 5 <= js_length (strip r) <= 16
    /\ exists_char (Ascii.eqb "_") (strip r) = false
    /\ exists_char (Ascii.eqb " ") (strip r) = false.
Proof.
  apply (@stored_custom_name_is_alphanumeric
           (add_form "lamp_01!" "Lamp") done (last_insert_id 8) done).
  vm_compute. right. right. left. reflexivity.
Defined.

(** C1.  The create handler run on a body with volume "150": the rule of
    the specification refuses the value, while the checks of the handler
    let it through and the value goes into
    [INSERT INTO devicetypes]. *)
Theorem out_of_range_volume_accepted_on_create :
  spec_field_ok 0 100 (JStr "150") = false
  /\ AddResult.handler
       (with_volume (JStr "150") (add_form "speaker1" "Speaker"))
       done (last_insert_id 8) done
     = [Query sqlQueryInsert
          [JStr "Speaker"; JNull; JNull; JStr "150"; JNull; JNull];
        Query sqlQueryRecentInsertID [];
        Query sqlQueryInsertCustomName [JStr "speaker1"; JNum 8]].
Proof. split; reflexivity. Qed.

(** C2.  The update handler run on a body whose custom name is "ab": it
    sends the schema/length error and then hands both UPDATE statements
    to the database.  The create and delete handlers, on a body with the
    same name, stop at the error. *)
Theorem rejected_update_still_writes :
  firstn 3 (UpdateResult.handler (update_form "7" "ab" "Speaker")
              done done done)
  = [Respond (StatusSend 500 name_error);
     Query sqlQueryCustomName [JStr "ab"; JStr "7"];
     Query sqlQueryUpdateFields
       [JStr "Speaker"; JNull; JNull; JNull; JNull; JNull; JStr "7"]]
  /\ AddResult.handler (add_form "ab" "Speaker") done done done
     = [Respond (StatusJson 400 name_error)]
  /\ DeleteResult.handler
       (with_device_type_ID (JStr "7") (add_form "ab" "Speaker")) done done
     = [Respond (StatusJson 400 name_error)].
Proof. repeat split. Qed.

(** C4.  The update handler run on a body with volume "150": no
    validation error is sent, and the UPDATE of [devicetypes] carries the
    value "150" for the record. *)
Theorem out_of_range_volume_written_on_update :
  let events :=
    UpdateResult.handler
      (with_volume (JStr "150") (update_form "7" "speaker1" "Speaker"))
      done done done in
  existsb is_rejection events = false
  /\ filter is_mutation events
     = [Query sqlQueryCustomName [JStr "speaker1"; JStr "7"];
        Query sqlQueryUpdateFields
          [JStr "Speaker"; JNull; JNull; JStr "150"; JNull; JNull;
           JStr "7"]].
Proof. split; reflexivity. Qed.

(** ** The derived display state *)

Lemma flag_rule_holds column : flag_rule column (JBool (negb (is_null column))).
Proof.
  destruct column; simpl; try (left; split; [discriminate|reflexivity]).
  right. now split.
Qed.

Lemma state_rule_holds column :
  state_rule column
    (state_of (negb (is_null column)) (strict_eq_num column 1)).
Proof.
  destruct column; simpl;
    try (right; right; repeat split; discriminate).
  - left. now split.
  - destruct (Z.eqb_spec z 1) as [->|Hz].
    + right. left. now split.
    + right. right. repeat split; congruence.
Qed.

(** C8.  For a joined record returned to the display-status handler, the
    rendered flags [validOnOff], [validTemperature], [validVolume],
    [validBatteriesIncluded] and [validOpenClosed] are true exactly when
    the stored column is not [null]; [deviceOn], [deviceOpen] and
    [deviceBatteries] are "the stored value is 1" when their flag is true
    and [0] when it is false; and the handler, whatever the database
    answers, issues no INSERT, UPDATE or DELETE. *)
Theorem display_status_derived_state id all row rows :
  (exists locals,
      DisplayStatus.handler id all (DbResult (row :: rows))
      = [Query sqlQueryAll []; Query sqlQueryDevice [id];
         Respond (Render "devicestatus.ejs" locals)]
      /\ flag_rule (get_prop "On_Off" row) (get_prop "validOnOff" locals)
      /\ flag_rule (get_prop "Temperature" row)
           (get_prop "validTemperature" locals)
      /\ flag_rule (get_prop "Volume" row) (get_prop "validVolume" locals)
      /\ flag_rule (get_prop "Batteries_Included" row)
           (get_prop "validBatteriesIncluded" locals)
      /\ flag_rule (get_prop "Open_Closed" row)
           (get_prop "validOpenClosed" locals)
      /\ state_rule (get_prop "On_Off" row) (get_prop "deviceOn" locals)
      /\ state_rule (get_prop "Open_Closed" row) (get_prop "deviceOpen" locals)
      /\ state_rule (get_prop "Batteries_Included" row)
           (get_prop "deviceBatteries" locals))
  /\ (forall record,
         existsb is_mutation (DisplayStatus.handler id all record) = false).
Proof.
  split.
  - eexists. split; [reflexivity|].
    cbn [get_prop display_locals app String.eqb Ascii.eqb Bool.eqb
           record_display_state valid_on_off valid_temperature valid_volume
           valid_batteries_included valid_open_closed deviceOnState
           deviceOpenState deviceBatteriesState].
    repeat split; first [apply flag_rule_holds | apply state_rule_holds].
  - intros [|[|r rs]]; reflexivity.
Qed.

(** ** The comma split *)

Lemma split_comma_cons s : exists p rest, split_comma s = p :: rest.
Proof.
  destruct s as [|c s]; simpl; [now eexists; eexists|].
  destruct (Ascii.eqb c ","); [now eexists; eexists|].
  destruct (split_comma s); now eexists; eexists.
Qed.

Lemma split_comma_pieces s :
  Forall (fun p => includes_comma p = false) (split_comma s).
Proof.
  induction s as [|c s IH]; simpl.
  - now constructor.
  - destruct (Ascii.eqb c ",") eqn:Hc.
    + now constructor.
    + destruct (split_comma s) as [|p rest].
      * constructor; [|constructor]. unfold includes_comma.
        cbn [exists_char]. rewrite Ascii.eqb_sym, Hc. reflexivity.
      * inversion IH as [|? ? Hp Hrest]; subst. constructor; [|assumption].
        unfold includes_comma in *. cbn [exists_char].
        rewrite Ascii.eqb_sym, Hc. assumption.
Qed.

Lemma join_split_comma s : join_comma (split_comma s) = s.
Proof.
  induction s as [|c s IH]; simpl; [reflexivity|].
  destruct (Ascii.eqb_spec c ",") as [->|Hc].
  - destruct (split_comma_cons s) as (p & rest & E).
    rewrite E in *.
    change (join_comma (EmptyString :: p :: rest))
      with (EmptyString ++ "," ++ join_comma (p :: rest))%string.
    now rewrite IH.
  - destruct (split_comma s) as [|p [|q rest]]; simpl in *.
    + now rewrite <- IH.
    + now rewrite IH.
    + now rewrite IH.
Qed.

Lemma split_fields_discrete (b : body jsval) p :
  device_type_ID b = JStr p -> includes_comma p = false ->
  split_fields b = Ok b.
Proof.
  intros Hid Hp. unfold split_fields. rewrite Hid. simpl. now rewrite Hp.
Qed.

(** C9.  In the confirm-delete and delete handlers, a [device_type_ID]
    that holds a comma is split on the commas and the pieces 0 to 7 become
    [device_type_ID], [custom_name], [device_type], [on_off],
    [batteries_included], [open_closed], [volume] and [temperature], in
    this order (a missing piece reads as [undefined]); the handlers then
    behave as on the body with these discrete fields.  Without a comma the
    body is used as given.  The pieces are the comma-free strings whose
    join with commas is the field. *)
Theorem comma_joined_fields (raw : body jsval) s :
  device_type_ID raw = JStr s ->
  (includes_comma s = true ->
   exists fields,
     split_fields raw = Ok fields
     /\ device_type_ID fields = index (split_comma s) 0
     /\ custom_name fields = index (split_comma s) 1
     /\ device_type fields = index (split_comma s) 2
     /\ on_off fields = index (split_comma s) 3
     /\ batteries_included fields = index (split_comma s) 4
     /\ open_closed fields = index (split_comma s) 5
     /\ volume fields = index (split_comma s) 6
     /\ temperature fields = index (split_comma s) 7
     /\ (forall all record,
            ConfirmDelete.handler raw all record
            = ConfirmDelete.handler fields all record)
     /\ (forall deleted all,
            DeleteResult.handler raw deleted all
            = DeleteResult.handler fields deleted all))
  /\ (includes_comma s = false -> split_fields raw = Ok raw)
  /\ join_comma (split_comma s) = s
  /\ Forall (fun p => includes_comma p = false) (split_comma s).
Proof.
  intros Hid. split; [|split; [|split]].
  - intros Hcomma.
    assert (Hsplit : split_fields raw
                     = Ok {| device_type_ID := index (split_comma s) 0;
                             custom_name := index (split_comma s) 1;
                             device_type := index (split_comma s) 2;
                             on_off := index (split_comma s) 3;
                             batteries_included := index (split_comma s) 4;
                             open_closed := index (split_comma s) 5;
                             volume := index (split_comma s) 6;
                             temperature := index (split_comma s) 7;
                             batteriesIncluded := batteriesIncluded raw |}).
    { unfold split_fields. rewrite Hid. simpl. now rewrite Hcomma. }
    eexists. split; [exact Hsplit|]. repeat split.
    + intros all record. unfold ConfirmDelete.handler at 1 2.
      rewrite Hsplit.
      destruct (split_comma_cons s) as (p & rest & E).
      pose proof (split_comma_pieces s) as Hp. rewrite E in Hp.
      inversion Hp as [|? ? Hp0 _]; subst.
      erewrite split_fields_discrete; [reflexivity| |exact Hp0].
      rewrite E. reflexivity.
    + intros deleted all. unfold DeleteResult.handler at 1 2.
      rewrite Hsplit.
      destruct (split_comma_cons s) as (p & rest & E).
      pose proof (split_comma_pieces s) as Hp. rewrite E in Hp.
      inversion Hp as [|? ? Hp0 _]; subst.
      erewrite split_fields_discrete; [reflexivity| |exact Hp0].
      rewrite E. reflexivity.
  - now apply split_fields_discrete.
  - apply join_split_comma.
  - apply split_comma_pieces.
Qed.

Lemma comma_joined_fields_witness :
  exists fields,
    split_fields (with_device_type_ID (JStr "7,lamp01,Lamp,1,,,,")
                    (add_form "x" "y")) = Ok fields
    /\ device_type_ID fields = JStr "7"
    /\ custom_name fields = JStr "lamp01"
    /\ device_type fields = JStr "Lamp"
    /\ on_off fields = JStr "1"
    /\ batteries_included fields = JStr EmptyString
    /\ open_closed fields = JStr EmptyString
    /\ volume fields = JStr EmptyString
    /\ temperature fields = JStr EmptyString.
Proof.
  destruct (@comma_joined_fields
              (with_device_type_ID (JStr "7,lamp01,Lamp,1,,,,")
                 (add_form "x" "y"))
              "7,lamp01,Lamp,1,,,," eq_refl) as (Hsplit & _).
  destruct (Hsplit eq_refl)
    as (fields & H0 & H1 & H2 & H3 & H4 & H5 & H6 & H7 & H8 & _).
  exists fields. repeat split; assumption.
Defined.

(** ** The sanitizer, route by route *)

Lemma AddResult_sanitize_cleaned raw b :
  AddResult.sanitize raw = Ok b <-> cleaned empty_rule raw b.
Proof.
  rewrite AddResult_sanitize_Ok. unfold cleaned, required_rule, empty_rule.
  now rewrite !replace_strip_Ok, !empty_to_null_Ok.
Qed.

Lemma UpdateResult_sanitize_cleaned raw b :
  UpdateResult.sanitize raw = Ok b <-> cleaned absent_rule raw b.
Proof.
  rewrite UpdateResult_sanitize_Ok. unfold cleaned, required_rule, absent_rule.
  now rewrite !replace_strip_Ok, !undefined_to_null_Ok.
Qed.

(** The two sanitizers, field by field.  On the four routes that test
    for the empty string the sanitizer returns a body exactly when both
    required fields are strings and every optional field is a string; an
    empty optional field becomes [null] and a non-empty one is stripped.
    The sanitizer of the update route returns a body exactly when both
    required fields are strings and every optional field is absent or a
    string; an absent one becomes [null] and a string is stripped. *)
Lemma sanitizer_by_route (raw : body jsval) (b : body string) :
  (AddResult.sanitize raw = Ok b <-> cleaned empty_rule raw b)
  /\ (ConfirmDelete.sanitize raw = Ok b <-> cleaned empty_rule raw b)
  /\ (DeleteResult.sanitize raw = Ok b <-> cleaned empty_rule raw b)
  /\ (RetrieveUpdateRecord.sanitize raw = Ok b <-> cleaned empty_rule raw b)
  /\ (UpdateResult.sanitize raw = Ok b <-> cleaned absent_rule raw b).
Proof.
  split; [|split; [|split; [|split]]].
  - apply AddResult_sanitize_cleaned.
  - apply (AddResult_sanitize_cleaned raw b).
  - apply (AddResult_sanitize_cleaned raw b).
  - apply (AddResult_sanitize_cleaned raw b).
  - apply UpdateResult_sanitize_cleaned.
Qed.

(** C5.  The optional fields at an empty and at an absent [on_off].  The
    specification sends both to [null].  The update handler keeps the
    empty string and writes it into [UPDATE devicetypes], where the create
    handler writes [null] for the same input; the create handler throws on
    the absent field, where the update handler writes [null]. *)
Theorem optional_field_empty_or_absent :
  (spec_optional (Some EmptyString) = JNull
   /\ filter is_mutation
        (UpdateResult.handler
           (with_on_off (raw_field (Some EmptyString))
              (update_form "7" "lamp01" "Lamp")) done done done)
      = [Query sqlQueryCustomName [JStr "lamp01"; JStr "7"];
         Query sqlQueryUpdateFields
           [JStr "Lamp"; JStr EmptyString; JNull; JNull; JNull; JNull;
            JStr "7"]]
   /\ filter is_mutation
        (AddResult.handler
           (with_on_off (raw_field (Some EmptyString))
              (add_form "lamp01" "Lamp")) done (last_insert_id 8) done)
      = [Query sqlQueryInsert [JStr "Lamp"; JNull; JNull; JNull; JNull; JNull];
         Query sqlQueryInsertCustomName [JStr "lamp01"; JNum 8]])
  /\ (spec_optional None = JNull
      /\ AddResult.handler
           (with_on_off (raw_field None) (add_form "lamp01" "Lamp"))
           done (last_insert_id 8) done
         = [Uncaught]
      /\ filter is_mutation
           (UpdateResult.handler
              (with_on_off (raw_field None)
                 (update_form "7" "lamp01" "Lamp")) done done done)
         = [Query sqlQueryCustomName [JStr "lamp01"; JStr "7"];
            Query sqlQueryUpdateFields
              [JStr "Lamp"; JNull; JNull; JNull; JNull; JNull; JStr "7"]]).
Proof. repeat split. Qed.

(** ** One pipeline on every route? *)

(** C6.  The copies of the pipeline, run on one body.  On the body the
    add form posts, the sanitizer of the create route turns the empty
    optional fields into [null] and the sanitizer of the update route
    keeps them as empty strings.  On a body whose custom name is "ab" the
    create route answers 400 with a JSON error and stops, the update route
    answers 500 with a text and goes on to the database.  And the field
    checks of the update route are not those of the create route: where
    [batteries_included] is the array of "0", the check of the create
    route fires and the check of the update route, which asks [isNaN]
    about another key, does not. *)
Theorem pipelines_differ_by_route :
  (AddResult.sanitize (add_form "lamp01" "Lamp")
   = Ok (Body JUndefined "lamp01" "Lamp" JNull JNull JNull JNull JNull
           JUndefined)
   /\ UpdateResult.sanitize (add_form "lamp01" "Lamp")
      = Ok (Body JUndefined "lamp01" "Lamp" (JStr EmptyString)
              (JStr EmptyString) (JStr EmptyString) (JStr EmptyString)
              (JStr EmptyString) JUndefined))
  /\ (AddResult.handler
        (with_device_type_ID (JStr "7") (add_form "ab" "Lamp")) done done done
      = [Respond (StatusJson 400 name_error)]
      /\ firstn 3
           (UpdateResult.handler
              (with_device_type_ID (JStr "7") (add_form "ab" "Lamp"))
              done done done)
         = [Respond (StatusSend 500 name_error);
            Query sqlQueryCustomName [JStr "ab"; JStr "7"];
            Query sqlQueryUpdateFields
              [JStr "Lamp"; JStr EmptyString; JStr EmptyString;
               JStr EmptyString; JStr EmptyString; JStr EmptyString;
               JStr "7"]])
  /\ (AddResult.isValid
        (Body (JStr "7") "lamp01" "Lamp" JNull (JArr [JStr "0"]) JNull JNull
           JNull JUndefined) = false
      /\ UpdateResult.isValid
           (Body (JStr "7") "lamp01" "Lamp" JNull (JArr [JStr "0"]) JNull
              JNull JNull JUndefined) = true).
Proof. repeat split. Qed.

(** ** Sanitizing twice *)

(** C7, as the code has it.  Stripping is idempotent, so sanitizing a
    sanitized required field returns it unchanged; sanitizing a sanitized
    optional field returns it unchanged when it is a non-empty string, and
    on the update route when it is any string. *)
Theorem strip_is_idempotent :
  (forall s, strip (strip s) = strip s)
  /\ (forall v t, replace_strip v = Ok t -> replace_strip (JStr t) = Ok t)
  /\ (forall v s,
         empty_to_null v = Ok (JStr s) -> s <> EmptyString ->
         empty_to_null (JStr s) = Ok (JStr s))
  /\ (forall v s,
         undefined_to_null v = Ok (JStr s) ->
         undefined_to_null (JStr s) = Ok (JStr s)).
Proof.
  split; [exact strip_strip|]. split; [|split].
  - intros v t H. apply replace_strip_Ok in H as (s & _ & ->).
    simpl. now rewrite strip_strip.
  - intros v s H Hs.
    apply empty_to_null_Ok in H as [[_ [=]]|(s0 & _ & _ & [= ->])].
    apply empty_to_null_Ok. right. exists (strip s0).
    now rewrite strip_strip.
  - intros v s H.
    apply undefined_to_null_Ok in H as [[_ [=]]|(s0 & _ & [= ->])].
    simpl. now rewrite strip_strip.
Qed.

Lemma strip_is_idempotent_witness :
  replace_strip (JStr "lamp01") = Ok "lamp01"
  /\ empty_to_null (JStr "1") = Ok (JStr "1")
  /\ undefined_to_null (JStr EmptyString) = Ok (JStr EmptyString).
Proof.
  destruct strip_is_idempotent as (_ & Hreq & Hempty & Hundef).
  split; [|split].
  - apply (Hreq (JStr "lamp_01")). reflexivity.
  - apply (Hempty (JStr "1!")); [reflexivity | discriminate].
  - apply (Hundef (JStr "!")). reflexivity.
Defined.

(** C7 as stated fails: on the routes that test for the empty string the
    optional-field sanitizer sends "_" to the empty string and the empty
    string to [null]; and a sanitized [null] makes either sanitizer
    throw. *)
Lemma sanitizer_idempotence_counterexample :
  (v <- empty_to_null (JStr "_") ;; empty_to_null v)
  <> empty_to_null (JStr "_")
  /\ (v <- undefined_to_null JUndefined ;; undefined_to_null v)
     <> undefined_to_null JUndefined.
Proof.
  split; intros H; vm_compute in H; discriminate H.
Qed.

(** * Further properties of the handlers *)

(** ** Case analysis of a run *)

(** The field checks pass after either sanitizer, in every copy. *)
Ltac checks_pass Hs :=
  first
    [ pose proof (AddResult_isValid_sanitized _ (AddResult_sanitized _ Hs))
    | pose proof (UpdateResult_isValid_sanitized _ (UpdateResult_sanitized _ Hs)) ];
  match goal with
  | Hv : ?f ?b = true |- context [negb (?g ?b)] =>
      change (g b) with (f b); rewrite Hv
  end.

(** Opens a handler that starts with the comma split. *)
Ltac open_split_handler raw Hs :=
  let fields := fresh "fields" in
  let b := fresh "b" in
  destruct (split_fields raw) as [fields|] eqn:?;
  [ destruct (is_undefined (device_type_ID fields)) eqn:?;
    [ | match goal with
        | |- context [match ?m with Ok _ => _ | Throw => _ end] =>
            destruct m as [b|] eqn:Hs;
            [ checks_pass Hs;
              destruct (name_out_of_schema (custom_name b)) eqn:? | ]
        end ]
  | ].

(** X1.  No handler ever sends the "data fields are invalid" answer:
    after the sanitizer every field check is skipped, on the create,
    confirm-delete, delete, retrieve-update-record and update routes, for
    every body and every answer of the database. *)
Theorem fields_error_is_never_sent raw a1 a2 a3 :
  existsb sends_fields_error (AddResult.handler raw a1 a2 a3) = false
  /\ existsb sends_fields_error (ConfirmDelete.handler raw a1 a2) = false
  /\ existsb sends_fields_error (DeleteResult.handler raw a1 a2) = false
  /\ existsb sends_fields_error (RetrieveUpdateRecord.handler raw a1 a2) = false
  /\ existsb sends_fields_error (UpdateResult.handler raw a1 a2 a3) = false.
Proof.
  split; [|split; [|split; [|split]]].
  - unfold AddResult.handler.
    destruct (AddResult.sanitize raw) as [b|] eqn:Hs; [|reflexivity].
    checks_pass Hs.
    destruct (name_out_of_schema (custom_name b)); [reflexivity|].
    destruct a1 as [|r1], a2 as [|[|row rows]], a3 as [|r3]; reflexivity.
  - unfold ConfirmDelete.handler. open_split_handler raw Hs; try reflexivity.
    destruct a1, a2; reflexivity.
  - unfold DeleteResult.handler. open_split_handler raw Hs; try reflexivity.
    destruct a1; reflexivity.
  - unfold RetrieveUpdateRecord.handler.
    open_split_handler raw Hs; try reflexivity;
      destruct a2 as [|[|row rows]]; reflexivity.
  - unfold UpdateResult.handler.
    destruct (UpdateResult.sanitize raw) as [b|] eqn:Hs; [|reflexivity].
    checks_pass Hs.
    destruct (name_out_of_schema (custom_name b)), a1, a2, a3; reflexivity.
Qed.

(** X2.  On the create, confirm-delete and delete routes a validation
    error is the only event of its run: when one of these handlers sends a
    rejection, it is the 400 answer with the schema/length text, and the
    handler has issued no query and made no other call. *)
Theorem rejection_is_the_whole_run raw a1 a2 a3 :
  (existsb is_rejection (AddResult.handler raw a1 a2 a3) = true ->
   AddResult.handler raw a1 a2 a3 = [Respond (StatusJson 400 name_error)])
  /\ (existsb is_rejection (ConfirmDelete.handler raw a1 a2) = true ->
      ConfirmDelete.handler raw a1 a2 = [Respond (StatusJson 400 name_error)])
  /\ (existsb is_rejection (DeleteResult.handler raw a1 a2) = true ->
      DeleteResult.handler raw a1 a2 = [Respond (StatusJson 400 name_error)]).
Proof.
  split; [|split].
  - unfold AddResult.handler.
    destruct (AddResult.sanitize raw) as [b|] eqn:Hs; [|discriminate].
    checks_pass Hs.
    destruct (name_out_of_schema (custom_name b)); [reflexivity|].
    destruct a1 as [|r1], a2 as [|[|row rows]], a3 as [|r3]; discriminate.
  - unfold ConfirmDelete.handler.
    open_split_handler raw Hs; try discriminate; try reflexivity.
    destruct a1, a2; discriminate.
  - unfold DeleteResult.handler.
    open_split_handler raw Hs; try discriminate; try reflexivity.
    destruct a1; discriminate.
Qed.

Lemma rejection_is_the_whole_run_witness :
  AddResult.handler (add_form "my lamp" "Lamp") done done done
  = [Respond (StatusJson 400 name_error)]
  /\ ConfirmDelete.handler
       (with_device_type_ID (JStr "7,lamp,Lamp,1,,,,") (add_form "x" "y"))
       done done
     = [Respond (StatusJson 400 name_error)]
  /\ DeleteResult.handler
       (with_device_type_ID (JStr "7") (add_form "a_very_long_name_of_lamp" "Lamp"))
       done done
     = [Respond (StatusJson 400 name_error)].
Proof.
  split; [|split].
  - apply (proj1 (rejection_is_the_whole_run
                    (add_form "my lamp" "Lamp") done done done)).
    reflexivity.
  - apply (proj1 (proj2 (rejection_is_the_whole_run
                    (with_device_type_ID (JStr "7,lamp,Lamp,1,,,,")
                       (add_form "x" "y")) done done done))).
    reflexivity.
  - apply (proj2 (proj2 (rejection_is_the_whole_run
                    (with_device_type_ID (JStr "7")
                       (add_form "a_very_long_name_of_lamp" "Lamp"))
                    done done done))).
    reflexivity.
Defined.

(** X3.  The pages, the dashboard, the confirm-delete page and the
    retrieve-update-record page only read: whatever the request and the
    answers of the database, none of them issues an INSERT, an UPDATE or a
    DELETE (the confirm-delete page does not delete). *)
Theorem reading_routes_never_write raw all record :
  existsb is_mutation Pages.home = false
  /\ existsb is_mutation Pages.about = false
  /\ existsb is_mutation Pages.addadevice = false
  /\ existsb is_mutation (Dashboard.handler all) = false
  /\ existsb is_mutation (ConfirmDelete.handler raw all record) = false
  /\ existsb is_mutation (RetrieveUpdateRecord.handler raw all record) = false.
Proof.
  repeat (split; [reflexivity|]). split; [|split].
  - destruct all; reflexivity.
  - unfold ConfirmDelete.handler. open_split_handler raw Hs; try reflexivity.
    destruct all, record; reflexivity.
  - unfold RetrieveUpdateRecord.handler.
    open_split_handler raw Hs; try reflexivity;
      destruct record as [|[|row rows]]; reflexivity.
Qed.

(** ** The update route writes *)

Lemma first_of_array_sanitized v :
  null_or_string v = true -> UpdateResult.first_of_array v = v.
Proof. destruct v; try discriminate; reflexivity. Qed.

Lemma unwrap_arrays_sanitized b :
  sanitized b = true -> UpdateResult.unwrap_arrays b = b.
Proof.
  intros H. apply sanitized_fields in H as (H1 & _ & _ & H4 & H5).
  unfold UpdateResult.unwrap_arrays.
  rewrite !first_of_array_sanitized by assumption. now destruct b.
Qed.

(** X4.  The update handler writes whenever its sanitizer returns: for
    every body the sanitizer accepts and every answer of the database it
    issues exactly two mutations, the UPDATE of [devicenames] and the
    UPDATE of [devicetypes], carrying the sanitized fields and the
    [device_type_ID] of the request as it came; when the sanitizer throws
    nothing is issued. *)
Theorem update_writes_whenever_sanitized raw a1 a2 a3 :
  (UpdateResult.sanitize raw = Throw ->
   UpdateResult.handler raw a1 a2 a3 = [Uncaught])
  /\ (forall b,
         UpdateResult.sanitize raw = Ok b ->
         filter is_mutation (UpdateResult.handler raw a1 a2 a3)
         = [Query sqlQueryCustomName [JStr (custom_name b); device_type_ID raw];
            Query sqlQueryUpdateFields
              [JStr (device_type b); on_off b; temperature b; volume b;
               batteries_included b; open_closed b; device_type_ID raw]]).
Proof.
  split.
  - intros Hs. unfold UpdateResult.handler. now rewrite Hs.
  - intros b Hs. unfold UpdateResult.handler. rewrite Hs.
    checks_pass Hs. unfold UpdateResult.write_and_list.
    rewrite (unwrap_arrays_sanitized _ (UpdateResult_sanitized _ Hs)).
    apply UpdateResult_sanitize_Ok in Hs as (_ & _ & _ & _ & _ & _ & _ & <- & _).
    destruct (name_out_of_schema (custom_name b)), a1, a2, a3; reflexivity.
Qed.

Lemma update_writes_whenever_sanitized_witness :
  UpdateResult.handler (with_on_off (JArr [JStr "1"; JStr "0"])
                          (update_form "7" "lamp01" "Lamp"))
    done done done = [Uncaught]
  /\ filter is_mutation
       (UpdateResult.handler
          (with_on_off (JStr "<1>") (update_form "7" "my lamp" "Lamp"))
          DbError done done)
     = [Query sqlQueryCustomName [JStr "my lamp"; JStr "7"];
        Query sqlQueryUpdateFields
          [JStr "Lamp"; JStr "1"; JNull; JNull; JNull; JNull; JStr "7"]].
Proof.
  split.
  - apply (proj1 (update_writes_whenever_sanitized
                    (with_on_off (JArr [JStr "1"; JStr "0"])
                       (update_form "7" "lamp01" "Lamp")) done done done)).
    reflexivity.
  - apply (proj2 (update_writes_whenever_sanitized
                    (with_on_off (JStr "<1>")
                       (update_form "7" "my lamp" "Lamp")) DbError done done)
             (Body (JStr "7") "my lamp" "Lamp" (JStr "1") JNull JNull JNull
                JNull JUndefined)).
    reflexivity.
Defined.

(** ** Which names the create route accepts *)

Lemma kept_char_is_word c :
  is_alnum_space c = true -> is_word c = negb (Ascii.eqb " " c).
Proof.
  unfold is_alnum_space, is_word. destruct (is_alnum c) eqn:Ha; cbn [orb].
  - intros _. now rewrite (alnum_not_space _ Ha).
  - rewrite Ascii.eqb_eq. now intros ->.
Qed.

Lemma dropped_char_is_no_space c :
  is_alnum_space c = false -> Ascii.eqb " " c = false.
Proof.
  intros H. destruct (Ascii.eqb_spec " " c) as [<-|]; [discriminate|reflexivity].
Qed.

Lemma stripped_words_have_no_space r :
  forall_chars is_word (strip r) = negb (exists_char (Ascii.eqb " ") r).
Proof.
  induction r as [|c r IH]; [reflexivity|].
  cbn [strip exists_char].
  destruct (is_alnum_space c) eqn:Hc; cbn [forall_chars].
  - now rewrite IH, (kept_char_is_word _ Hc), negb_orb.
  - now rewrite IH, (dropped_char_is_no_space _ Hc).
Qed.

Lemma nonempty_all_length p s :
  0 < js_length s -> nonempty_all p s = forall_chars p s.
Proof.
  destruct s; [unfold js_length; simpl; lia | reflexivity].
Qed.

(** X5.  The create handler accepts a request (goes on to the database)
    exactly when the submitted custom name holds no space and between 5
    and 16 characters are left of it once the characters outside
    [[A-Za-z0-9 ]] are removed: the length is counted after the
    stripping, and every other character is dropped without an error. *)
Theorem create_accepts_iff raw b r a1 a2 a3 :
  AddResult.sanitize raw = Ok b -> custom_name raw = JStr r ->
  (existsb is_query (AddResult.handler raw a1 a2 a3) = true
   <-> exists_char (Ascii.eqb " ") r = false
       /\ 5 <= js_length (strip r) <= 16).
Proof.
  intros Hs Hr.
  rewrite (AddResult_handler_sanitized _ a1 a2 a3 Hs).
  apply AddResult_sanitize_Ok in Hs as (_ & Hname & _).
  rewrite Hr in Hname. simpl in Hname. injection Hname as <-.
  destruct (name_out_of_schema (strip r)) eqn:Hcheck.
  - split; [discriminate|]. intros [Hspace Hlen].
    assert (Hin : name_out_of_schema (strip r) = false).
    { apply name_in_schema_iff. split; [|assumption].
      rewrite nonempty_all_length by lia.
      now rewrite stripped_words_have_no_space, Hspace. }
    congruence.
  - split; [intros _|reflexivity].
    apply name_in_schema_iff in Hcheck as [Hw Hlen]. split; [|assumption].
    rewrite nonempty_all_length in Hw by lia.
    rewrite stripped_words_have_no_space in Hw.
    now apply negb_true_iff in Hw.
Qed.

Lemma create_accepts_iff_witness :
  existsb is_query
    (AddResult.handler (add_form "l-a-m-p-1" "Lamp") done done done) = true.
Proof.
  apply (proj2 (@create_accepts_iff (add_form "l-a-m-p-1" "Lamp")
                  (Body JUndefined "lamp1" "Lamp" JNull JNull JNull JNull JNull
                     JUndefined) "l-a-m-p-1" done done done
                  eq_refl eq_refl)).
  split; [reflexivity|]. vm_compute. split; discriminate.
Defined.

(** ** What the create route answers and inserts *)

(** X6.  The create handler never reports a success: every response it
    sends is the 400 rejection or a redirect to the add page, and when the
    database answers every query without an error an accepted request
    gets no response at all. *)
Theorem create_never_reports_success raw :
  (forall a1 a2 a3 r,
      In (Respond r) (AddResult.handler raw a1 a2 a3) ->
      r = StatusJson 400 name_error \/ r = Redirect "/addadevice")
  /\ (forall rows1 rows2 rows3,
         existsb is_query
           (AddResult.handler raw (DbResult rows1) (DbResult rows2)
              (DbResult rows3)) = true ->
         existsb is_response
           (AddResult.handler raw (DbResult rows1) (DbResult rows2)
              (DbResult rows3)) = false).
Proof.
  split.
  - intros a1 a2 a3 r. unfold AddResult.handler.
    destruct (AddResult.sanitize raw) as [b|] eqn:Hs.
    2:{ intros [H|[]]. discriminate. }
    checks_pass Hs.
    destruct (name_out_of_schema (custom_name b)).
    { intros [[= <-]|[]]. now left. }
    destruct a1 as [|r1], a2 as [|[|row rows]], a3 as [|r3]; simpl;
      intros Hin;
      repeat match type of Hin with
             | _ \/ _ => destruct Hin as [Hin|Hin]
             | False => contradiction
             | Respond _ = Respond _ => injection Hin as <-; now right
             | _ = _ => discriminate Hin
             end.
  - intros rows1 rows2 rows3. unfold AddResult.handler.
    destruct (AddResult.sanitize raw) as [b|] eqn:Hs; [|discriminate].
    checks_pass Hs.
    destruct (name_out_of_schema (custom_name b)); [discriminate|].
    destruct rows2; reflexivity.
Qed.

Lemma create_never_reports_success_witness :
  (Redirect "/addadevice" = StatusJson 400 name_error
   \/ Redirect "/addadevice" = Redirect "/addadevice")
  /\ existsb is_response
       (AddResult.handler (add_form "lamp01" "Lamp")
          (DbResult []) (DbResult [[("LAST_INSERT_ID()", JNum 8)]])
          (DbResult [])) = false.
Proof.
  split.
  - apply (proj1 (create_never_reports_success (add_form "lamp01" "Lamp"))
             DbError (last_insert_id 8) done).
    vm_compute. right. right. left. reflexivity.
  - apply (proj2 (create_never_reports_success (add_form "lamp01" "Lamp"))).
    reflexivity.
Defined.

(** X7.  The two inserts of the create handler are not tied together: for
    an accepted body the INSERT of the device type is always issued, and
    the INSERT of the name is issued exactly when [SELECT
    LAST_INSERT_ID()] returns a row, with the id of that row, whether the
    INSERT of the device type succeeded or failed. *)
Theorem name_insert_follows_last_insert_id raw b a1 a2 a3 :
  AddResult.sanitize raw = Ok b ->
  name_out_of_schema (custom_name b) = false ->
  filter is_mutation (AddResult.handler raw a1 a2 a3)
  = Query sqlQueryInsert
      [JStr (device_type b); on_off b; temperature b; volume b;
       batteries_included b; open_closed b]
    :: match a2 with
       | DbResult (row :: _) =>
           [Query sqlQueryInsertCustomName
              [JStr (custom_name b); get_prop "LAST_INSERT_ID()" row]]
       | _ => []
       end.
Proof.
  intros Hs Hname.
  rewrite (AddResult_handler_sanitized _ a1 a2 a3 Hs), Hname.
  destruct a1 as [|r1], a2 as [|[|row rows]], a3 as [|r3]; reflexivity.
Qed.

Lemma name_insert_follows_last_insert_id_witness :
  filter is_mutation
    (AddResult.handler (add_form "lamp01" "Lamp") DbError (last_insert_id 3)
       done)
  = [Query sqlQueryInsert [JStr "Lamp"; JNull; JNull; JNull; JNull; JNull];
     Query sqlQueryInsertCustomName [JStr "lamp01"; JNum 3]].
Proof.
  apply (@name_insert_follows_last_insert_id
           (add_form "lamp01" "Lamp")
           (Body JUndefined "lamp01" "Lamp" JNull JNull JNull JNull JNull
              JUndefined) DbError (last_insert_id 3) done);
    reflexivity.
Defined.

(** ** The comma-joined field, further *)

Lemma first_piece s : index (split_comma s) 0 = JStr (before_comma s).
Proof.
  destruct s as [|c s]; [reflexivity|]. cbn [split_comma before_comma].
  destruct (Ascii.eqb c ","); [reflexivity|].
  revert c. induction s as [|d s IH]; intros c; [reflexivity|].
  cbn [split_comma before_comma].
  destruct (Ascii.eqb d ","); [reflexivity|].
  specialize (IH d). destruct (split_comma_cons (String d s)) as (p & rest & E).
  cbn [split_comma] in E.
  destruct (split_comma s) as [|q qs]; unfold index in *; simpl in *;
    congruence.
Qed.

Lemma before_comma_whole s : includes_comma s = false -> before_comma s = s.
Proof.
  unfold includes_comma. induction s as [|c s IH]; [reflexivity|].
  cbn [exists_char before_comma]. rewrite Ascii.eqb_sym.
  destruct (Ascii.eqb c ","); [discriminate|]. simpl. intros H. now rewrite IH.
Qed.

Lemma split_comma_whole s : includes_comma s = false -> split_comma s = [s].
Proof.
  unfold includes_comma. induction s as [|c s IH]; [reflexivity|].
  cbn [exists_char split_comma]. rewrite Ascii.eqb_sym.
  destruct (Ascii.eqb c ","); [discriminate|]. simpl. intros H. now rewrite IH.
Qed.

Lemma split_comma_length s : length (split_comma s) = S (count_commas s).
Proof.
  induction s as [|c s IH]; [reflexivity|]. cbn [split_comma count_commas].
  destruct (Ascii.eqb c ","); [simpl; now rewrite IH|].
  destruct (split_comma s); simpl in *; congruence.
Qed.

Lemma includes_comma_count s :
  includes_comma s = true <-> (1 <= count_commas s)%nat.
Proof.
  unfold includes_comma. induction s as [|c s IH].
  - simpl. split; [discriminate|lia].
  - cbn [exists_char count_commas]. rewrite Ascii.eqb_sym.
    destruct (Ascii.eqb c ","); simpl; [split; [lia|reflexivity]|assumption].
Qed.

Lemma split_comma_app p t :
  includes_comma p = false ->
  split_comma (p ++ String "," t) = p :: split_comma t.
Proof.
  unfold includes_comma. induction p as [|c p IH]; [reflexivity|].
  cbn [exists_char append split_comma]. rewrite Ascii.eqb_sym.
  destruct (Ascii.eqb c ","); [discriminate|]. simpl. intros H.
  now rewrite IH.
Qed.

Lemma split_join_comma pieces :
  pieces <> [] ->
  Forall (fun p => includes_comma p = false) pieces ->
  split_comma (join_comma pieces) = pieces.
Proof.
  induction pieces as [|p rest IH]; [congruence|]. intros _ H.
  inversion H as [|? ? Hp Hrest]; subst.
  destruct rest as [|q rest]; [now apply split_comma_whole|].
  change (join_comma (p :: q :: rest))
    with (p ++ String "," (join_comma (q :: rest)))%string.
  rewrite split_comma_app by assumption. f_equal.
  apply IH; [discriminate|assumption].
Qed.

Lemma split_fields_id raw fields :
  split_fields raw = Ok fields -> device_type_ID fields = request_id raw.
Proof.
  unfold split_fields, request_id.
  destruct (device_type_ID raw) as [| | | |s|elems|] eqn:Hid; simpl;
    try discriminate.
  - destruct (includes_comma s) eqn:Hc; intros [= <-]; simpl.
    + apply first_piece.
    + now rewrite Hid, before_comma_whole.
  - destruct (existsb _ elems); simpl; [discriminate|].
    intros [= <-]. assumption.
Qed.

(** X8.  The delete handler deletes by the identifier of the request and
    nothing else: either it issues no mutation, or its only mutation is
    [DELETE FROM devicetypes] with one parameter, the text of
    [device_type_ID] up to its first comma, which no sanitizer has
    touched; and once it has issued the DELETE it renders the result page
    even when the database reports that the DELETE failed. *)
Theorem delete_is_keyed_by_request_id raw deleted all :
  filter is_mutation (DeleteResult.handler raw deleted all) = []
  \/ (filter is_mutation (DeleteResult.handler raw deleted all)
      = [Query sqlQueryDelete [request_id raw]]
      /\ last (DeleteResult.handler raw deleted all) Uncaught
         = Respond (Render "confirmdeleteresult.ejs"
                      [("deviceList", result_value all)])).
Proof.
  unfold DeleteResult.handler.
  destruct (split_fields raw) as [fields|] eqn:Hsplit; [|now left].
  destruct (is_undefined (device_type_ID fields)); [now left|].
  destruct (DeleteResult.sanitize fields) as [b|] eqn:Hs; [|now left].
  checks_pass Hs.
  destruct (name_out_of_schema (custom_name b)); [now left|]. right.
  apply split_fields_id in Hsplit.
  apply AddResult_sanitize_Ok in Hs as (_ & _ & _ & _ & _ & _ & _ & Hid & _).
  rewrite <- Hsplit, <- Hid. destruct deleted; split; reflexivity.
Qed.

(** X9.  A confirm-delete, delete or retrieve-update-record request whose
    [device_type_ID] holds between one and six commas ends in an uncaught
    error before any query or response: the split leaves the eighth field
    undefined and the sanitizer calls [replace] on it. *)
Theorem short_joined_field_throws raw s a1 a2 :
  device_type_ID raw = JStr s ->
  (1 <= count_commas s < 7)%nat ->
  ConfirmDelete.handler raw a1 a2 = [Uncaught]
  /\ DeleteResult.handler raw a1 a2 = [Uncaught]
  /\ RetrieveUpdateRecord.handler raw a1 a2 = [Uncaught].
Proof.
  intros Hid [Hlo Hhi].
  assert (Hc : includes_comma s = true) by now apply includes_comma_count.
  assert (Hsplit : exists fields,
             split_fields raw = Ok fields
             /\ device_type_ID fields = JStr (before_comma s)
             /\ temperature fields = JUndefined).
  { eexists. split; [|split].
    - unfold split_fields. rewrite Hid. simpl. rewrite Hc. reflexivity.
    - simpl. apply first_piece.
    - simpl. unfold index.
      replace (nth_error (split_comma s) 7) with (@None string); [reflexivity|].
      symmetry. apply nth_error_None. rewrite split_comma_length. lia. }
  destruct Hsplit as (fields & Hsplit & Hfid & Htemp).
  assert (Hthrow : AddResult.sanitize fields = Throw).
  { destruct (AddResult.sanitize fields) as [b|] eqn:Hs; [|reflexivity].
    apply AddResult_sanitize_Ok in Hs as (_ & _ & _ & H & _).
    rewrite Htemp in H. discriminate H. }
  unfold ConfirmDelete.handler, DeleteResult.handler,
    RetrieveUpdateRecord.handler.
  rewrite Hsplit, Hfid. cbn [is_undefined].
  change (ConfirmDelete.sanitize fields) with (AddResult.sanitize fields).
  change (DeleteResult.sanitize fields) with (AddResult.sanitize fields).
  change (RetrieveUpdateRecord.sanitize fields) with (AddResult.sanitize fields).
  rewrite Hthrow. repeat split.
Qed.

Lemma short_joined_field_throws_witness :
  ConfirmDelete.handler
    (with_device_type_ID (JStr "7,lamp01,Lamp") (add_form "lamp01" "Lamp"))
    done done = [Uncaught]
  /\ DeleteResult.handler
       (with_device_type_ID (JStr "7,lamp01,Lamp") (add_form "lamp01" "Lamp"))
       done done = [Uncaught]
  /\ RetrieveUpdateRecord.handler
       (with_device_type_ID (JStr "7,lamp01,Lamp") (add_form "lamp01" "Lamp"))
       done done = [Uncaught].
Proof.
  apply (@short_joined_field_throws
           (with_device_type_ID (JStr "7,lamp01,Lamp")
              (add_form "lamp01" "Lamp"))
           "7,lamp01,Lamp" done done eq_refl).
  simpl. lia.
Defined.

Lemma split_fields_joined pieces extra :
  pieces <> [] ->
  Forall (fun p => includes_comma p = false) pieces ->
  split_fields (joined_body pieces extra) = Ok (discrete_body pieces extra).
Proof.
  intros Hne Hp. unfold split_fields. cbn [joined_body device_type_ID].
  cbn [includes bind].
  destruct (includes_comma (join_comma pieces)) eqn:Hc.
  - cbn [split bind batteriesIncluded].
    now rewrite (split_join_comma Hne Hp).
  - unfold joined_body, discrete_body. f_equal.
    rewrite <- (split_join_comma Hne Hp) at 2 3 4 5 6 7 8 9.
    now rewrite (split_comma_whole _ Hc).
Qed.

Lemma split_fields_of_discrete pieces extra :
  pieces <> [] ->
  Forall (fun p => includes_comma p = false) pieces ->
  split_fields (discrete_body pieces extra) = Ok (discrete_body pieces extra).
Proof.
  intros Hne Hp. destruct pieces as [|p rest]; [congruence|].
  inversion Hp; subst.
  now apply (@split_fields_discrete (discrete_body (p :: rest) extra) p).
Qed.

(** X10.  The comma-joined form and the discrete form of a record are
    read alike: for pieces that hold no comma, the confirm-delete, delete
    and retrieve-update-record handlers produce the same events on the
    body whose [device_type_ID] is the pieces joined by commas as on the
    body that carries the pieces in the eight fields. *)
Theorem joined_record_round_trip pieces extra a1 a2 :
  pieces <> [] ->
  Forall (fun p => includes_comma p = false) pieces ->
  ConfirmDelete.handler (joined_body pieces extra) a1 a2
  = ConfirmDelete.handler (discrete_body pieces extra) a1 a2
  /\ DeleteResult.handler (joined_body pieces extra) a1 a2
     = DeleteResult.handler (discrete_body pieces extra) a1 a2
  /\ RetrieveUpdateRecord.handler (joined_body pieces extra) a1 a2
     = RetrieveUpdateRecord.handler (discrete_body pieces extra) a1 a2.
Proof.
  intros Hne Hp.
  unfold ConfirmDelete.handler, DeleteResult.handler,
    RetrieveUpdateRecord.handler.
  rewrite (split_fields_joined extra Hne Hp).
  rewrite (split_fields_of_discrete extra Hne Hp).
  repeat split.
Qed.

Lemma joined_record_round_trip_witness :
  DeleteResult.handler
    (joined_body ["7"; "lamp01"; "Lamp"; "1"; EmptyString; EmptyString;
                  EmptyString; EmptyString] JUndefined) done done
  = DeleteResult.handler
      (discrete_body ["7"; "lamp01"; "Lamp"; "1"; EmptyString; EmptyString;
                      EmptyString; EmptyString] JUndefined) done done.
Proof.
  apply (@joined_record_round_trip
           ["7"; "lamp01"; "Lamp"; "1"; EmptyString; EmptyString;
            EmptyString; EmptyString] JUndefined done done).
  - discriminate.
  - repeat constructor.
Defined.

(** X11.  The redirect that guards a missing [device_type_ID] is never
    taken: after the comma split the identifier is never [undefined], and
    a confirm-delete, delete or retrieve-update-record request without a
    [device_type_ID] ends in an uncaught error instead. *)
Theorem missing_id_is_uncaught raw a1 a2 :
  (forall fields,
      split_fields raw = Ok fields ->
      is_undefined (device_type_ID fields) = false)
  /\ (device_type_ID raw = JUndefined ->
      ConfirmDelete.handler raw a1 a2 = [Uncaught]
      /\ DeleteResult.handler raw a1 a2 = [Uncaught]
      /\ RetrieveUpdateRecord.handler raw a1 a2 = [Uncaught]).
Proof.
  split.
  - intros fields H. rewrite (split_fields_id _ H).
    unfold split_fields, request_id in *.
    destruct (device_type_ID raw); try discriminate H; reflexivity.
  - intros Hid.
    unfold ConfirmDelete.handler, DeleteResult.handler,
      RetrieveUpdateRecord.handler, split_fields.
    rewrite Hid. repeat split.
Qed.

Lemma missing_id_is_uncaught_witness :
  is_undefined
    (device_type_ID
       (with_device_type_ID (JStr "7") (add_form "lamp01" "Lamp")))
  = false
  /\ ConfirmDelete.handler (add_form "lamp01" "Lamp") done done = [Uncaught].
Proof.
  split.
  - apply (proj1 (missing_id_is_uncaught
                    (with_device_type_ID (JStr "7") (add_form "lamp01" "Lamp"))
                    done done)).
    reflexivity.
  - apply (proj2 (missing_id_is_uncaught (add_form "lamp01" "Lamp") done done)).
    reflexivity.
Defined.

(** ** The display state of the update route *)

Lemma undefined_to_null_display v w :
  undefined_to_null v = Ok w ->
  negb (is_null w) = negb (is_undefined v)
  /\ state_of (negb (is_null w)) (strict_eq_str w "1") = submitted_state v.
Proof.
  intros H.
  apply undefined_to_null_Ok in H as [[-> ->]|(s & -> & ->)]; now split.
Qed.

(** X12.  When both updates and the listing succeed, the update handler
    renders the result page last, with a display state read off the
    request and not off the database: each [valid...] flag is true
    exactly when the field was submitted (an empty one included), and
    [deviceOn], [deviceOpen] and [deviceBatteries] are [0] for an absent
    field and otherwise tell whether the sanitized text of the field is
    "1".  When an UPDATE fails after the name check has sent its 500, or
    when both UPDATEs fail, the redirect of the callback throws and the
    page is never rendered. *)
Theorem update_display_state raw b :
  UpdateResult.sanitize raw = Ok b ->
  (forall rows1 rows2 rows,
      exists locals,
        last (UpdateResult.handler raw (DbResult rows1) (DbResult rows2)
                (DbResult rows)) Uncaught
        = Respond (Render "performupdateresult.ejs" locals)
        /\ get_prop "validOnOff" locals
           = JBool (negb (is_undefined (on_off raw)))
        /\ get_prop "validTemperature" locals
           = JBool (negb (is_undefined (temperature raw)))
        /\ get_prop "validVolume" locals
           = JBool (negb (is_undefined (volume raw)))
        /\ get_prop "validBatteriesIncluded" locals
           = JBool (negb (is_undefined (batteries_included raw)))
        /\ get_prop "validOpenClosed" locals
           = JBool (negb (is_undefined (open_closed raw)))
        /\ get_prop "deviceOn" locals = submitted_state (on_off raw)
        /\ get_prop "deviceOpen" locals = submitted_state (open_closed raw)
        /\ get_prop "deviceBatteries" locals
           = submitted_state (batteries_included raw))
  /\ (forall a1 a2 a3,
         (name_out_of_schema (custom_name b) = true
          /\ (a1 = DbError \/ a2 = DbError))
         \/ (a1 = DbError /\ a2 = DbError) ->
         existsb is_render (UpdateResult.handler raw a1 a2 a3) = false
         /\ last (UpdateResult.handler raw a1 a2 a3)
              (Respond (Redirect "index.html")) = Uncaught).
Proof.
  intros Hs. unfold UpdateResult.handler. rewrite Hs. checks_pass Hs.
  unfold UpdateResult.write_and_list.
  rewrite (unwrap_arrays_sanitized _ (UpdateResult_sanitized _ Hs)).
  split.
  - intros rows1 rows2 rows.
    apply UpdateResult_sanitize_Ok in Hs
      as (_ & _ & Hon & Htemp & Hvol & Hbat & Hopen & _).
    apply undefined_to_null_display in Hon as [Hon1 Hon2].
    apply undefined_to_null_display in Htemp as [Htemp1 _].
    apply undefined_to_null_display in Hvol as [Hvol1 _].
    apply undefined_to_null_display in Hbat as [Hbat1 Hbat2].
    apply undefined_to_null_display in Hopen as [Hopen1 Hopen2].
    eexists. split.
    + destruct (name_out_of_schema (custom_name b)); reflexivity.
    + cbn [get_prop display_locals app String.eqb Ascii.eqb Bool.eqb
             UpdateResult.body_display_state valid_on_off valid_temperature
             valid_volume valid_batteries_included valid_open_closed
             deviceOnState deviceOpenState deviceBatteriesState].
      rewrite Hon1, Htemp1, Hvol1, Hbat1, Hopen1, <- Hon2, <- Hbat2, <- Hopen2.
      rewrite Hon1, Hbat1, Hopen1. repeat split.
  - intros a1 a2 a3 [[Hname [-> | ->]] | [-> ->]].
    + rewrite Hname. destruct a2, a3; split; reflexivity.
    + rewrite Hname. destruct a1, a3; split; reflexivity.
    + destruct (name_out_of_schema (custom_name b)), a3; split; reflexivity.
Qed.

Lemma update_display_state_witness :
  (exists locals,
      last (UpdateResult.handler
              (with_on_off (JStr "1!") (update_form "7" "lamp01" "Lamp"))
              done done (DbResult [])) Uncaught
      = Respond (Render "performupdateresult.ejs" locals)
      /\ get_prop "validOnOff" locals = JBool true
      /\ get_prop "validVolume" locals = JBool false
      /\ get_prop "deviceOn" locals = JBool true
      /\ get_prop "deviceOpen" locals = JNum 0)
  /\ last (UpdateResult.handler
             (with_on_off (JStr "1!") (update_form "7" "lamp01" "Lamp"))
             DbError DbError done) (Respond (Redirect "index.html"))
     = Uncaught.
Proof.
  destruct (@update_display_state
              (with_on_off (JStr "1!") (update_form "7" "lamp01" "Lamp"))
              (Body (JStr "7") "lamp01" "Lamp" (JStr "1") JNull JNull JNull
                 JNull JUndefined) eq_refl)
    as (Hrender & Hthrow).
  split.
  - destruct (Hrender [] [] [])
      as (locals & H0 & H1 & _ & H3 & _ & _ & H6 & H7 & _).
    exists locals. repeat split; assumption.
  - apply (Hthrow DbError DbError done). right. now split.
Defined.

(** ** What reaches the database *)

Lemma replace_strip_clean v t :
  replace_strip v = Ok t -> clean_value (JStr t) = true.
Proof.
  intros H. apply replace_strip_Ok in H as (s & _ & ->).
  apply strip_alnum_space.
Qed.

Lemma empty_to_null_clean v w : empty_to_null v = Ok w -> clean_value w = true.
Proof.
  intros H. apply empty_to_null_Ok in H as [[_ ->]|(s & _ & _ & ->)];
    [reflexivity | apply strip_alnum_space].
Qed.

Lemma undefined_to_null_clean v w :
  undefined_to_null v = Ok w -> clean_value w = true.
Proof.
  intros H. apply undefined_to_null_Ok in H as [[_ ->]|(s & _ & ->)];
    [reflexivity | apply strip_alnum_space].
Qed.

(** X13.  Every field value the create and update handlers write went
    through the sanitizer: the parameters of [INSERT INTO devicetypes],
    the name of [UPDATE devicenames] and the six field values of [UPDATE
    devicetypes] are each [null] or a string of characters of
    [[A-Za-z0-9 ]], for every request and every answer of the database. *)
Theorem written_values_are_clean raw a1 a2 a3 params :
  (In (Query sqlQueryInsert params) (AddResult.handler raw a1 a2 a3) ->
   forallb clean_value params = true)
  /\ (In (Query sqlQueryCustomName params)
        (UpdateResult.handler raw a1 a2 a3) ->
      forallb clean_value (firstn 1 params) = true)
  /\ (In (Query sqlQueryUpdateFields params)
        (UpdateResult.handler raw a1 a2 a3) ->
      forallb clean_value (firstn 6 params) = true).
Proof.
  split; [|split].
  - destruct (AddResult.sanitize raw) as [b|] eqn:Hs.
    2:{ unfold AddResult.handler. rewrite Hs. intros [H|[]]. discriminate. }
    rewrite (AddResult_handler_sanitized _ a1 a2 a3 Hs).
    apply AddResult_sanitize_Ok in Hs
      as (H1 & _ & H3 & H4 & H5 & H6 & H7 & _).
    apply replace_strip_clean in H1. apply empty_to_null_clean in H3, H4, H5, H6, H7.
    destruct (name_out_of_schema (custom_name b)).
    { intros [H|[]]. discriminate. }
    intros Hin.
    destruct a1 as [|r1], a2 as [|[|row rows]], a3 as [|r3];
      find_query Hin; cbn [forallb]; now rewrite H1, H3, H4, H5, H6, H7.
  - unfold UpdateResult.handler.
    destruct (UpdateResult.sanitize raw) as [b|] eqn:Hs.
    2:{ intros [H|[]]. discriminate. }
    checks_pass Hs. unfold UpdateResult.write_and_list.
    rewrite (unwrap_arrays_sanitized _ (UpdateResult_sanitized _ Hs)).
    apply UpdateResult_sanitize_Ok in Hs as (_ & H2 & _).
    apply replace_strip_clean in H2.
    intros Hin.
    destruct (name_out_of_schema (custom_name b)), a1 as [|r1], a2 as [|r2],
      a3 as [|r3];
      find_query Hin; cbn [firstn forallb]; now rewrite H2.
  - unfold UpdateResult.handler.
    destruct (UpdateResult.sanitize raw) as [b|] eqn:Hs.
    2:{ intros [H|[]]. discriminate. }
    checks_pass Hs. unfold UpdateResult.write_and_list.
    rewrite (unwrap_arrays_sanitized _ (UpdateResult_sanitized _ Hs)).
    apply UpdateResult_sanitize_Ok in Hs
      as (H1 & _ & H3 & H4 & H5 & H6 & H7 & _).
    apply replace_strip_clean in H1.
    apply undefined_to_null_clean in H3, H4, H5, H6, H7.
    intros Hin.
    destruct (name_out_of_schema (custom_name b)), a1 as [|r1], a2 as [|r2],
      a3 as [|r3];
      find_query Hin; cbn [firstn forallb];
      now rewrite H1, H3, H4, H5, H6, H7.
Qed.

Lemma written_values_are_clean_witness :
  forallb clean_value
    [JStr "Lamp"; JStr "1"; JNull; JStr "20"; JNull; JNull] = true.
Proof.
  apply (proj1 (written_values_are_clean
                  (with_volume (JStr "<20>")
                     (with_on_off (JStr "1;") (add_form "lamp01" "L'amp")))
                  done done done
                  [JStr "Lamp"; JStr "1"; JNull; JStr "20"; JNull; JNull])).
  vm_compute. left. reflexivity.
Defined.

(** ** The stripping *)

Lemma strip_length_le s : js_length (strip s) <= js_length s.
Proof.
  unfold js_length. induction s as [|c s IH]; [simpl; lia|].
  cbn [strip]. destruct (is_alnum_space c); cbn [String.length]; lia.
Qed.

Lemma strip_same_length s : js_length (strip s) = js_length s -> strip s = s.
Proof.
  induction s as [|c s IH]; [reflexivity|]. cbn [strip].
  pose proof (strip_length_le s) as Hle. unfold js_length in *.
  destruct (is_alnum_space c); cbn [String.length]; intros H.
  - f_equal. apply IH. lia.
  - lia.
Qed.

Lemma strip_app s t : strip (s ++ t) = (strip s ++ strip t)%string.
Proof.
  induction s as [|c s IH]; [reflexivity|]. cbn [append strip].
  destruct (is_alnum_space c); cbn [append]; now rewrite IH.
Qed.

(** X14.  The replace of the sanitizer only removes: it leaves a string
    unchanged exactly when all its characters are in [[A-Za-z0-9 ]], it
    never lengthens a string and shortens every string it changes, and it
    works piece by piece. *)
Theorem strip_only_removes s :
  (strip s = s <-> forall_chars is_alnum_space s = true)
  /\ js_length (strip s) <= js_length s
  /\ (strip s <> s -> js_length (strip s) < js_length s)
  /\ (forall t, strip (s ++ t) = (strip s ++ strip t)%string).
Proof.
  split; [|split; [|split]].
  - split; [|apply strip_fixed].
    intros H. rewrite <- H. apply strip_alnum_space.
  - apply strip_length_le.
  - intros H. pose proof (strip_length_le s) as Hle.
    destruct (Z.eq_dec (js_length (strip s)) (js_length s)) as [E|E]; [|lia].
    now apply strip_same_length in E.
  - apply strip_app.
Qed.

(** ** A record that is not there *)

(** X15.  When the single-record query finds no record, the status page
    and the update page are never rendered: the callback of
    display-status and of retrieve-update-record reads [result[0]] of an
    empty result and ends in an uncaught error.  The confirm-delete page
    is rendered all the same, with an empty [deviceInfo]. *)
Theorem missing_record raw id all :
  (existsb is_render (DisplayStatus.handler id all (DbResult [])) = false
   /\ last (DisplayStatus.handler id all (DbResult []))
        (Respond (Redirect "index.html"))
      = Uncaught)
  /\ existsb is_render (RetrieveUpdateRecord.handler raw all (DbResult []))
     = false
  /\ (existsb is_query (ConfirmDelete.handler raw all (DbResult [])) = true ->
      last (ConfirmDelete.handler raw all (DbResult [])) Uncaught
      = Respond (Render "confirmdelete.ejs"
                   [("deviceInfo", JArr []);
                    ("deviceList", result_value all)])).
Proof.
  split; [split; reflexivity|]. split.
  - unfold RetrieveUpdateRecord.handler.
    open_split_handler raw Hs; reflexivity.
  - unfold ConfirmDelete.handler.
    open_split_handler raw Hs; try discriminate.
    intros _. destruct all; reflexivity.
Qed.

Lemma missing_record_witness :
  last (ConfirmDelete.handler
          (with_device_type_ID (JStr "7") (add_form "lamp01" "Lamp"))
          done (DbResult [])) Uncaught
  = Respond (Render "confirmdelete.ejs"
               [("deviceInfo", JArr []); ("deviceList", result_value done)]).
Proof.
  apply (proj2 (proj2 (missing_record
                  (with_device_type_ID (JStr "7") (add_form "lamp01" "Lamp"))
                  (JStr "7") done))).
  reflexivity.
Defined.

(** X16.  The update page shows the stored record: when
    retrieve-update-record reaches the database and the single-record
    query returns a record, the last event is the rendering of
    [performupdate.ejs], with each [valid...] flag true exactly when the
    stored column is not [null] and [deviceOn], [deviceOpen],
    [deviceBatteries] telling whether the stored value is 1 ([0] for a
    [null] column); the submitted field values play no part in it. *)
Theorem retrieve_update_display_state raw all row rows :
  existsb is_query
    (RetrieveUpdateRecord.handler raw all (DbResult (row :: rows))) = true ->
  exists locals,
    last (RetrieveUpdateRecord.handler raw all (DbResult (row :: rows)))
      Uncaught
    = Respond (Render "performupdate.ejs" locals)
    /\ flag_rule (get_prop "On_Off" row) (get_prop "validOnOff" locals)
    /\ flag_rule (get_prop "Temperature" row)
         (get_prop "validTemperature" locals)
    /\ flag_rule (get_prop "Volume" row) (get_prop "validVolume" locals)
    /\ flag_rule (get_prop "Batteries_Included" row)
         (get_prop "validBatteriesIncluded" locals)
    /\ flag_rule (get_prop "Open_Closed" row)
         (get_prop "validOpenClosed" locals)
    /\ state_rule (get_prop "On_Off" row) (get_prop "deviceOn" locals)
    /\ state_rule (get_prop "Open_Closed" row) (get_prop "deviceOpen" locals)
    /\ state_rule (get_prop "Batteries_Included" row)
         (get_prop "deviceBatteries" locals).
Proof.
  unfold RetrieveUpdateRecord.handler.
  open_split_handler raw Hs; try discriminate; intros _;
    (eexists; split; [reflexivity|];
     cbn [get_prop display_locals app String.eqb Ascii.eqb Bool.eqb
            record_display_state valid_on_off valid_temperature valid_volume
            valid_batteries_included valid_open_closed deviceOnState
            deviceOpenState deviceBatteriesState];
     repeat split; first [apply flag_rule_holds | apply state_rule_holds]).
Qed.

Lemma retrieve_update_display_state_witness :
  exists locals,
    last (RetrieveUpdateRecord.handler
            (with_device_type_ID (JStr "7,lamp01,Lamp,1,,,,")
               (add_form "x" "y"))
            done
            (DbResult [[("On_Off", JNum 1); ("Temperature", JNull);
                        ("Volume", JNull); ("Batteries_Included", JNull);
                        ("Open_Closed", JNum 0)]])) Uncaught
    = Respond (Render "performupdate.ejs" locals)
    /\ get_prop "validOnOff" locals = JBool true
    /\ get_prop "deviceOn" locals = JBool true
    /\ get_prop "validVolume" locals = JBool false
    /\ get_prop "deviceOpen" locals = JBool false.
Proof.
  destruct (@retrieve_update_display_state
              (with_device_type_ID (JStr "7,lamp01,Lamp,1,,,,")
                 (add_form "x" "y"))
              done
              [("On_Off", JNum 1); ("Temperature", JNull);
               ("Volume", JNull); ("Batteries_Included", JNull);
               ("Open_Closed", JNum 0)] [] eq_refl)
    as (locals & H0 & _).
  exists locals. split; [exact H0|].
  vm_compute in H0. injection H0 as <-. repeat split.
Defined.
